(** * The realtime plugin of viewer.js (src/plugins/realtime/realtime.js)

    A shallow embedding of the plugin and of the [Realtime] wrapper around
    the browser's EventSource, followed by the properties of the readiness
    gate, of the stream event handlers and of teardown.

    JavaScript values are the values a JSON decoder can return (numbers
    restricted to the integers, which is what the stream carries as page
    indices) plus [undefined].  The collaborators the plugin does not own
    (the JSON decoder of the common utility, the browser's EventSource and
    feature detection) are collected in the record [Host]; the host message
    bus ([scope.broadcast]) and the host API ([viewerAPI.fire]) only record
    what they are given in a trace: they do not call back into the plugin.
    Strings are sequences of 8-bit characters.  A plugin lifetime has one
    [init], as the framework calls it once for each plugin instance. *)

From Equations Require Import Equations.
From Equations.Prop Require Import Logic.
From Stdlib Require Import Ascii.
From stdpp Require Import base tactics option list strings pretty.

Local Open Scope string_scope.
Local Open Scope Z_scope.
Local Open Scope list_scope.
Set Warnings "-register-all".

(** ** JavaScript values *)

Inductive JSValue : Type :=
| JUndefined
| JNull
| JBool (b : bool)
| JNum (n : Z)
| JStr (s : string)
| JArr (elems : list JSValue)
| JObj (fields : list (string * JSValue)).

(** Own property lookup in an object literal: the first binding of the key. *)
Fixpoint lookupField (k : string) (fs : list (string * JSValue)) : option JSValue :=
  match fs with
  | [] => None
  | (k', v) :: fs' => if decide (k = k') then Some v else lookupField k fs'
  end.

(** ToBoolean: what [if (v)] and [v || w] test. *)
Definition truthy (v : JSValue) : bool :=
  match v with
  | JUndefined | JNull => false
  | JBool b => b
  | JNum n => negb (n =? 0)
  | JStr s => negb (String.eqb s EmptyString)
  | JArr _ | JObj _ => true
  end.

(** [a || b] *)
Definition jsOr (a b : JSValue) : JSValue := if truthy a then a else b.

Definition joinComma (ss : list string) : string :=
  match ss with
  | [] => EmptyString
  | s :: rest => fold_left (fun acc t => acc +:+ "," +:+ t) rest s
  end.

(** ToString on the values above; an array joins its elements with commas,
    printing [null] and [undefined] elements as the empty string. *)
Fixpoint toString (v : JSValue) : string :=
  match v with
  | JUndefined => "undefined"
  | JNull => "null"
  | JBool true => "true"
  | JBool false => "false"
  | JNum n => pretty n
  | JStr s => s
  | JArr l =>
      joinComma (map (fun x => match x with
                               | JUndefined | JNull => EmptyString
                               | _ => toString x
                               end) l)
  | JObj _ => "[object Object]"
  end.

(** The one-character string at position [i] of [s], if any. *)
Fixpoint charAt (i : nat) (s : string) : option string :=
  match s, i with
  | EmptyString, _ => None
  | String c _, O => Some (String c EmptyString)
  | String _ s', S i' => charAt i' s'
  end.

(** ** Errors and completions *)

Inductive Error : Type :=
| TypeError                     (* property access on null or undefined *)
| DecodeError                   (* thrown by the JSON decoder *)
| UrlError                      (* thrown by the EventSource constructor *)
| PluginError (msg : string).   (* [throw new Error(msg)] *)

Inductive Completion (A : Type) : Type :=
| Normal (a : A)
| Throw (e : Error).
Arguments Normal {A} a.
Arguments Throw {A} e.

(** ** The world: host objects and the plugin's closure variables *)

Inductive Handler : Type :=
| handlePageAvailableEvent_h
| handleFinishedEvent_h
| handleErrorEvent_h.

Global Instance Handler_eq_dec : EqDecision Handler.
Proof. solve_decision. Defined.

(** A browser EventSource: its listener list and whether [close()] was
    called on it. *)
Record EventSource : Type := mkEventSource {
  es_url : string;
  es_listeners : list (string * Handler);
  es_closed : bool
}.

(** A [Realtime] object: its only field, [this.eventSource], holds a
    reference into the browser's event sources or [null]. *)
Record Realtime : Type := mkRealtime {
  eventSource : option nat
}.

(** The viewer configuration object returned by [scope.getConfig()]. *)
Record Config : Type := mkConfig {
  numPages : JSValue;
  conversionIsComplete : JSValue
}.

Record Message : Type := mkMessage {
  name : string;
  data : JSValue
}.

(** What the outside observes. *)
Inductive Effect : Type :=
| Broadcast (name : string) (data : JSValue)   (* scope.broadcast(name, data) *)
| Fire (name : string) (data : JSValue)        (* viewerAPI.fire(name, data) *)
| Connect (id : nat) (url : string)            (* new window.EventSource(url) *)
| Close (id : nat).                            (* eventSource.close() *)

Record World : Type := mkWorld {
  (* host side *)
  sources : list EventSource;
  config : Config;
  trace : list Effect;
  (* closure variables of the plugin; [false]/[None] stand for a variable
     that holds null or undefined *)
  util : bool;
  viewerConfig : bool;
  viewerAPI : bool;
  realtime : option Realtime;
  ready : bool;
  messageQueue : option (list Message)
}.

Definition set_sources (f : list EventSource -> list EventSource) (w : World) : World :=
  mkWorld (f (sources w)) (config w) (trace w) (util w) (viewerConfig w)
          (viewerAPI w) (realtime w) (ready w) (messageQueue w).
Definition set_config (c : Config) (w : World) : World :=
  mkWorld (sources w) c (trace w) (util w) (viewerConfig w)
          (viewerAPI w) (realtime w) (ready w) (messageQueue w).
Definition emitEffect (e : Effect) (w : World) : World :=
  mkWorld (sources w) (config w) (trace w ++ [e]) (util w) (viewerConfig w)
          (viewerAPI w) (realtime w) (ready w) (messageQueue w).
Definition set_realtime (r : option Realtime) (w : World) : World :=
  mkWorld (sources w) (config w) (trace w) (util w) (viewerConfig w)
          (viewerAPI w) r (ready w) (messageQueue w).
Definition set_ready (b : bool) (w : World) : World :=
  mkWorld (sources w) (config w) (trace w) (util w) (viewerConfig w)
          (viewerAPI w) (realtime w) b (messageQueue w).
Definition set_messageQueue (q : option (list Message)) (w : World) : World :=
  mkWorld (sources w) (config w) (trace w) (util w) (viewerConfig w)
          (viewerAPI w) (realtime w) (ready w) q.
(** [util = viewerAPI = viewerConfig = messageQueue = null] *)
Definition releaseReferences (w : World) : World :=
  mkWorld (sources w) (config w) (trace w) false false false
          (realtime w) (ready w) None.

(** The messages waiting in the queue (none when the queue was released). *)
Definition pending (w : World) : list Message := default [] (messageQueue w).

(** ** A state and exception monad over the world *)

Definition M (A : Type) : Type := World -> Completion A * World.

Definition ret {A} (a : A) : M A := fun w => (Normal a, w).
Definition throw {A} (e : Error) : M A := fun w => (Throw e, w).
Definition bind {A B} (m : M A) (k : A -> M B) : M B :=
  fun w => match m w with
           | (Normal a, w') => k a w'
           | (Throw e, w') => (Throw e, w')
           end.
(** [try { m } catch (e) { h }] *)
Definition tryCatch {A} (m : M A) (h : M A) : M A :=
  fun w => match m w with
           | (Normal a, w') => (Normal a, w')
           | (Throw _, w') => h w'
           end.
Definition gets {A} (f : World -> A) : M A := fun w => (Normal (f w), w).
Definition modify (f : World -> World) : M unit := fun w => (Normal tt, f w).

Declare Scope js_scope.
Delimit Scope js_scope with js.
Notation "x ← y ; z" := (bind y (fun x => z))
  (at level 20, y at level 100, z at level 200, only parsing) : js_scope.
Notation "x ;; z" := (bind x (fun _ => z))
  (at level 100, z at level 200, only parsing, right associativity) : js_scope.
Local Open Scope js_scope.

(** The world a computation leaves behind, however it completes. *)
Definition exec {A} (m : M A) (w : World) : World := snd (m w).
Definition completion {A} (m : M A) (w : World) : Completion A := fst (m w).

(** ** The host message bus and the host API *)

Definition scope_broadcast (name : string) (data : JSValue) : M unit :=
  modify (emitEffect (Broadcast name data)).

(** [viewerAPI.fire(name, data)]; throws when [viewerAPI] holds null. *)
Definition viewerAPI_fire (name : string) (data : JSValue) : M unit :=
  api ← gets viewerAPI;
  if api then modify (emitEffect (Fire name data)) else throw TypeError.

(** ** The readiness gate *)

Definition broadcastMessageWhenReady (name : string) (data : JSValue) : M unit :=
  r ← gets ready;
  if r then scope_broadcast name data
  else
    q ← gets messageQueue;
    match q with
    | None => throw TypeError
    | Some q => modify (set_messageQueue (Some (q ++ [mkMessage name data])))
    end.

(** [while (messageQueue.length) { message = messageQueue.shift(); ... }]:
    the queue is read from the world at every iteration. *)
Equations? broadcastQueuedMessages (w : World) : Completion unit * World
  by wf (length (pending w)) lt :=
  broadcastQueuedMessages w with inspect (messageQueue w) := {
    | exist _ None _ => (Throw TypeError, w)
    | exist _ (Some []) _ => (Normal tt, w)
    | exist _ (Some (message :: rest)) Hq =>
        broadcastQueuedMessages
          (exec (scope_broadcast (name message) (data message))
                (set_messageQueue (Some rest) w))
  }.
Proof. unfold pending. rewrite Hq. simpl. lia. Qed.

Definition handleReadyMessage : M unit :=
  modify (set_ready true);;
  broadcastQueuedMessages.

(** ** The collaborators the plugin is given *)

Record Host : Type := mkHost {
  (** [util.parseJSON] applied to [event.data]; [None] when it throws *)
  parseJSON : option string -> option JSValue;
  (** the numeric value of a string, [None] for NaN *)
  stringToNumber : string -> option Z;
  (** whether [window.EventSource] is defined *)
  window_EventSource : bool;
  (** whether the EventSource constructor accepts the URL *)
  urlResolves : string -> bool;
  (** [scope.getUtility('support').svg] *)
  support_svg : bool
}.

(** A stream event: its type and [event.data] ([None] for the browser's own
    error events, which carry no data). *)
Record Event : Type := mkEvent {
  ev_type : string;
  ev_data : option string
}.

Definition dataValue (ev : Event) : JSValue :=
  match ev_data ev with
  | Some s => JStr s
  | None => JUndefined
  end.

(** ToNumber, as the comparison [i < pages.length] applies it. *)
Definition toNumber (h : Host) (v : JSValue) : option Z :=
  match v with
  | JUndefined => None
  | JNull => Some 0
  | JBool b => Some (if b then 1 else 0)
  | JNum n => Some n
  | JStr s => stringToNumber h s
  | JArr _ | JObj _ => stringToNumber h (toString v)
  end.

(** [v.k] for a property name [k] that is not an array index. *)
Definition getProp (v : JSValue) (k : string) : Completion JSValue :=
  match v with
  | JUndefined | JNull => Throw TypeError
  | JBool _ | JNum _ => Normal JUndefined
  | JStr s =>
      Normal (if decide (k = "length") then JNum (Z.of_nat (String.length s))
              else JUndefined)
  | JArr l =>
      Normal (if decide (k = "length") then JNum (Z.of_nat (length l))
              else JUndefined)
  | JObj fs => Normal (default JUndefined (lookupField k fs))
  end.

(** [v[i]] for a non-negative integer [i]. *)
Definition getIndex (v : JSValue) (i : nat) : Completion JSValue :=
  match v with
  | JUndefined | JNull => Throw TypeError
  | JBool _ | JNum _ => Normal JUndefined
  | JStr s => Normal (default JUndefined (JStr <$> charAt i s))
  | JArr l => Normal (default JUndefined (l !! i))
  | JObj fs => Normal (default JUndefined (lookupField (pretty i) fs))
  end.

Definition liftC {A} (c : Completion A) : M A := fun w => (c, w).

(** ** The browser's EventSource *)

Definition EventSource_new (h : Host) (url : string) : M nat :=
  if urlResolves h url then
    id ← gets (fun w => length (sources w));
    modify (set_sources (fun l => l ++ [mkEventSource url [] false]));;
    modify (emitEffect (Connect id url));;
    ret id
  else throw UrlError.

(** A listener already registered for the same type is not added again. *)
Definition addListener (l : string * Handler) (es : EventSource) : EventSource :=
  if decide (l ∈ es_listeners es) then es
  else mkEventSource (es_url es) (es_listeners es ++ [l]) (es_closed es).

Definition removeListener (l : string * Handler) (es : EventSource) : EventSource :=
  mkEventSource (es_url es) (filter (fun l' => l' ≠ l) (es_listeners es)) (es_closed es).

Definition closeSource (es : EventSource) : EventSource :=
  mkEventSource (es_url es) (es_listeners es) true.

Definition addEventListener (id : nat) (name : string) (handler : Handler) : M unit :=
  modify (set_sources (alter (addListener (name, handler)) id)).

Definition removeEventListener (id : nat) (name : string) (handler : Handler) : M unit :=
  modify (set_sources (alter (removeListener (name, handler)) id)).

Definition EventSource_close (id : nat) : M unit :=
  modify (set_sources (alter closeSource id));;
  modify (emitEffect (Close id)).

(** ** The [Realtime] wrapper *)

Definition Realtime_new (h : Host) (url : string) : M Realtime :=
  if window_EventSource h then
    id ← EventSource_new h url;
    ret (mkRealtime (Some id))
  else throw (PluginError "Realtime plugin requires EventSource support").

Definition Realtime_on (this : Realtime) (name : string) (handler : Handler) : M unit :=
  match eventSource this with
  | Some id => addEventListener id name handler
  | None => throw TypeError
  end.

Definition Realtime_off (this : Realtime) (name : string) (handler : Handler) : M unit :=
  match eventSource this with
  | Some id => removeEventListener id name handler
  | None => throw TypeError
  end.

(** Returns the object as the call leaves it. *)
Definition Realtime_destroy (this : Realtime) : M Realtime :=
  match eventSource this with
  | Some id =>
      EventSource_close id;;
      ret (mkRealtime None)
  | None => ret this
  end.

(** ** The plugin *)

(** [realtime.destroy()] on the plugin's variable. *)
Definition realtime_destroy : M unit :=
  r ← gets realtime;
  match r with
  | Some this =>
      this' ← Realtime_destroy this;
      modify (set_realtime (Some this'))
  | None => throw TypeError
  end.

(** [realtime.on(name, handler)] on the plugin's variable. *)
Definition realtime_on (name : string) (handler : Handler) : M unit :=
  r ← gets realtime;
  match r with
  | Some this => Realtime_on this name handler
  | None => throw TypeError
  end.

Fixpoint forLoop (count : nat) (i : nat) (body : nat -> M unit) : M unit :=
  match count with
  | O => ret tt
  | S count' => body i;; forLoop count' (S i) body
  end.

(** The number of times [i < pages.length] holds for [i = 0, 1, ...]. *)
Definition iterations (h : Host) (len : JSValue) : nat :=
  Z.to_nat (default 0 (toNumber h len)).

Definition updateAvailablePages (h : Host) (pages : JSValue) : M unit :=
  len ← liftC (getProp pages "length");
  forLoop (iterations h len) 0 (fun i =>
    page ← liftC (getIndex pages i);
    broadcastMessageWhenReady "pageavailable" (JObj [("page", page)])).

(** [util.parseJSON(event.data)] *)
Definition util_parseJSON (h : Host) (ev : Event) : M JSValue :=
  u ← gets util;
  if u then
    match parseJSON h (ev_data ev) with
    | Some v => ret v
    | None => throw DecodeError
    end
  else throw TypeError.

Definition handlePageAvailableEvent (h : Host) (ev : Event) : M unit :=
  decoded ← util_parseJSON h ev;
  pages ← liftC (getProp decoded "pages");
  updateAvailablePages h pages.

(** [viewerAPI.fire] is looked up before its argument is evaluated, so a
    released [viewerAPI] throws first, then [data.error]. *)
Definition handleErrorEvent (h : Host) (ev : Event) : M unit :=
  data ← tryCatch (util_parseJSON h ev)
                  (ret (JObj [("error", dataValue ev)]));
  api ← gets viewerAPI;
  (if api then
     err ← liftC (getProp data "error");
     modify (emitEffect (Fire "realtimeerror"
               (JObj [("error", jsOr err (JStr "unspecified error"))])))
   else throw TypeError);;
  realtime_destroy.

Definition handleFinishedEvent : M unit :=
  vc ← gets viewerConfig;
  (if vc then
     n ← gets (fun w => numPages (config w));
     broadcastMessageWhenReady "pageavailable" (JObj [("upto", n)])
   else throw TypeError);;
  viewerAPI_fire "realtimecomplete" JUndefined;;
  realtime_destroy.

Definition registerBoxViewPageEventHandlers (h : Host) : M unit :=
  if support_svg h then
    realtime_on "pageavailable.svg" handlePageAvailableEvent_h;;
    realtime_on "finished.svg" handleFinishedEvent_h;;
    realtime_on "failed.svg" handleErrorEvent_h
  else
    realtime_on "pageavailable.png" handlePageAvailableEvent_h;;
    realtime_on "finished.png" handleFinishedEvent_h;;
    realtime_on "failed.png" handleErrorEvent_h.

(** The plugin's configuration object; [url] is [None] when it is absent. *)
Record PluginConfig : Type := mkPluginConfig {
  url : option string
}.

(** [if (url)]: a string is truthy unless it is empty. *)
Definition configured (cfg : PluginConfig) : option string :=
  match url cfg with
  | Some u => if truthy (JStr u) then Some u else None
  | None => None
  end.

Definition setConversionIsComplete (v : JSValue) : M unit :=
  vc ← gets viewerConfig;
  if vc then
    modify (fun w => set_config (mkConfig (numPages (config w)) v) w)
  else throw TypeError.

Definition onmessage : M unit := handleReadyMessage.

Definition init (h : Host) (cfg : PluginConfig) : M unit :=
  match configured cfg with
  | Some u =>
      this ← Realtime_new h u;
      modify (set_realtime (Some this));;
      realtime_on "error" handleErrorEvent_h;;
      setConversionIsComplete (JBool false);;
      registerBoxViewPageEventHandlers h
  | None => ret tt
  end.

Definition destroy : M unit :=
  r ← gets realtime;
  match r with
  | Some this =>
      Realtime_destroy this;;
      modify (set_realtime None)
  | None => ret tt
  end;;
  modify releaseReferences.

(** The plugin as [Crocodoc.addPlugin] creates it, over the viewer
    configuration [c]. *)
Definition create (c : Config) : World :=
  mkWorld [] c [] true true true None false (Some []).

(** ** Event delivery and plugin lifetimes *)

Definition runHandler (h : Host) (hd : Handler) (ev : Event) : M unit :=
  match hd with
  | handlePageAvailableEvent_h => handlePageAvailableEvent h ev
  | handleFinishedEvent_h => handleFinishedEvent
  | handleErrorEvent_h => handleErrorEvent h ev
  end.

(** The listeners of [es] registered for events of type [ty], in
    registration order. *)
Definition listenersFor (ty : string) (es : EventSource) : list Handler :=
  snd <$> filter (fun l => l.1 = ty) (es_listeners es).

(** The browser delivers [ev] on event source [id]: a closed source
    dispatches nothing; otherwise each listener for the type runs to
    completion, and an exception it throws is reported and dropped. *)
Definition deliver (h : Host) (id : nat) (ev : Event) (w : World) : World :=
  match sources w !! id with
  | Some es =>
      if es_closed es then w
      else fold_left (fun w' hd => exec (runHandler h hd ev) w')
                     (listenersFor (ev_type ev) es) w
  | None => w
  end.

(** What can happen to a plugin after [init]. *)
Inductive Op : Type :=
| OpReady                              (* the viewer's ready message *)
| OpDeliver (id : nat) (ev : Event)    (* a stream event arrives *)
| OpDestroy.                           (* the host tears the plugin down *)

Definition step (h : Host) (op : Op) (w : World) : World :=
  match op with
  | OpReady => exec onmessage w
  | OpDeliver id ev => deliver h id ev w
  | OpDestroy => exec destroy w
  end.

Definition run (h : Host) (ops : list Op) (w : World) : World :=
  fold_left (fun w' op => step h op w') ops w.

(** A plugin lifetime: creation, one [init], then any operations. *)
Definition lifetime (h : Host) (c : Config) (cfg : PluginConfig) (ops : list Op) : World :=
  run h ops (exec (init h cfg) (create c)).

(** The terminal signals among the effects. *)
Definition isTerminal (e : Effect) : bool :=
  match e with
  | Fire n _ => bool_decide (n = "realtimeerror" ∨ n = "realtimecomplete")
  | _ => false
  end.

Definition terminals (t : list Effect) : nat := length (filter (fun e => isTerminal e = true) t).

(** ** Vocabulary of the properties *)

Definition toBroadcast (m : Message) : Effect := Broadcast (name m) (data m).

Definition emitEffects (es : list Effect) (w : World) : World :=
  mkWorld (sources w) (config w) (trace w ++ es) (util w) (viewerConfig w)
          (viewerAPI w) (realtime w) (ready w) (messageQueue w).

(** A sequence of [emit] calls, one after the other. *)
Fixpoint emitAll (msgs : list Message) : M unit :=
  match msgs with
  | [] => ret tt
  | m :: rest => broadcastMessageWhenReady (name m) (data m);; emitAll rest
  end.

(** The notifications a [pageavailable] event makes for the page indices
    [ps]. *)
Definition pageMessages (ps : list JSValue) : list Message :=
  (fun p => mkMessage "pageavailable" (JObj [("page", p)])) <$> ps.

(** The subscription [id] is open and the plugin holds it. *)
Definition active (w : World) (id : nat) : Prop :=
  realtime w = Some (mkRealtime (Some id)) ∧
  (∃ es, sources w !! id = Some es ∧ es_closed es = false) ∧
  util w = true ∧ viewerConfig w = true ∧ viewerAPI w = true ∧
  is_Some (messageQueue w).

(** The computation [m] keeps [P], whether it returns or throws. *)
Definition stable (P : World → Prop) {A} (m : M A) : Prop :=
  ∀ w, P w → P (exec m w).

(** The gate's invariant: a queue exists, and it is empty once the viewer
    is ready. *)
Definition gateInv (w : World) : Prop :=
  ∃ q, messageQueue w = Some q ∧ (ready w = true → q = []).

(** ** A JSON decoder for examples

    It reads [null], booleans, integers, strings without escapes, arrays and
    objects, and rejects every other text. *)

Definition isWs (c : ascii) : bool :=
  bool_decide (c = " "%char ∨ c = "010"%char ∨ c = "013"%char ∨ c = "009"%char).

Fixpoint skipWs (s : string) : string :=
  match s with
  | String c s' => if isWs c then skipWs s' else s
  | EmptyString => s
  end.

Definition digitOf (c : ascii) : option Z :=
  let n := Z.of_nat (nat_of_ascii c) in
  if bool_decide (48 ≤ n ≤ 57) then Some (n - 48) else None.

(** Reads the digits at the front of [s] into [acc]. *)
Fixpoint readDigits (acc : Z) (s : string) : Z * string :=
  match s with
  | String c s' =>
      match digitOf c with
      | Some d => readDigits (10 * acc + d) s'
      | None => (acc, s)
      end
  | EmptyString => (acc, s)
  end.

(** An integer without sign: one digit, then more only if the first is
    not zero. *)
Definition readNat (s : string) : option (Z * string) :=
  match s with
  | String c s' =>
      match digitOf c with
      | Some 0 => match s' with
                  | String c' _ => if digitOf c' is Some _ then None else Some (0, s')
                  | EmptyString => Some (0, s')
                  end
      | Some d => Some (readDigits d s')
      | None => None
      end
  | EmptyString => None
  end.

(** The characters up to the closing quote. *)
Fixpoint readString (s : string) : option (string * string) :=
  match s with
  | EmptyString => None
  | String c s' =>
      if bool_decide (c = "034"%char) then Some (EmptyString, s')
      else if bool_decide (c = "\"%char) then None
      else '(t, r) ← readString s'; Some (String c t, r)
  end.

(** A later binding of a key replaces an earlier one. *)
Definition addMember (k : string) (v : JSValue) (rest : list (string * JSValue)) :
    list (string * JSValue) :=
  if lookupField k rest is Some _ then rest else (k, v) :: rest.

Fixpoint parseValue (fuel : nat) (s : string) : option (JSValue * string) :=
  match fuel with
  | O => None
  | S fuel' =>
      match skipWs s with
      | String "n" (String "u" (String "l" (String "l" r))) => Some (JNull, r)
      | String "t" (String "r" (String "u" (String "e" r))) => Some (JBool true, r)
      | String "f" (String "a" (String "l" (String "s" (String "e" r)))) =>
          Some (JBool false, r)
      | String "034" r => '(t, r') ← readString r; Some (JStr t, r')
      | String "[" r =>
          match skipWs r with
          | String "]" r' => Some (JArr [], r')
          | _ => '(vs, r') ← parseElements fuel' r; Some (JArr vs, r')
          end
      | String "{" r =>
          match skipWs r with
          | String "}" r' => Some (JObj [], r')
          | _ => '(fs, r') ← parseMembers fuel' r; Some (JObj fs, r')
          end
      | String "-" r => '(n, r') ← readNat r; Some (JNum (- n), r')
      | r => '(n, r') ← readNat r; Some (JNum n, r')
      end
  end
with parseElements (fuel : nat) (s : string) : option (list JSValue * string) :=
  match fuel with
  | O => None
  | S fuel' =>
      '(v, r) ← parseValue fuel' s;
      match skipWs r with
      | String "," r' => '(vs, r'') ← parseElements fuel' r'; Some (v :: vs, r'')
      | String "]" r' => Some ([v], r')
      | _ => None
      end
  end
with parseMembers (fuel : nat) (s : string) : option (list (string * JSValue) * string) :=
  match fuel with
  | O => None
  | S fuel' =>
      match skipWs s with
      | String "034" r =>
          '(k, r1) ← readString r;
          match skipWs r1 with
          | String ":" r2 =>
              '(v, r3) ← parseValue fuel' r2;
              match skipWs r3 with
              | String "," r4 =>
                  '(fs, r5) ← parseMembers fuel' r4; Some (addMember k v fs, r5)
              | String "}" r4 => Some ([(k, v)], r4)
              | _ => None
              end
          | _ => None
          end
      | _ => None
      end
  end.

(** The decoder applied to [event.data]; absent data does not decode. *)
Definition decodeJSON (d : option string) : option JSValue :=
  match d with
  | Some s =>
      match parseValue (S (String.length s)) s with
      | Some (v, r) => if decide (skipWs r = EmptyString) then Some v else None
      | None => None
      end
  | None => None
  end.

(** Decimal strings only; everything else is NaN. *)
Definition decimalToNumber (s : string) : option Z :=
  match s with
  | String "-" r =>
      match readNat r with
      | Some (n, EmptyString) => Some (- n)
      | _ => None
      end
  | _ =>
      match readNat s with
      | Some (n, EmptyString) => Some n
      | _ => None
      end
  end.

(** A browser with EventSource and SVG support, and one without
    EventSource. *)
Definition browser : Host := mkHost decodeJSON decimalToNumber true (fun _ => true) true.
Definition oldBrowser : Host := mkHost decodeJSON decimalToNumber false (fun _ => true) false.

(** The viewer is ready and nothing waits in the queue. *)
Definition drained (w : World) : Prop := ready w = true ∧ pending w = [].

(** The listeners [init] registers, in registration order. *)
Definition initListeners (h : Host) : list (string * Handler) :=
  ("error", handleErrorEvent_h) ::
  (if support_svg h then
     [("pageavailable.svg", handlePageAvailableEvent_h);
      ("finished.svg", handleFinishedEvent_h);
      ("failed.svg", handleErrorEvent_h)]
   else
     [("pageavailable.png", handlePageAvailableEvent_h);
      ("finished.png", handleFinishedEvent_h);
      ("failed.png", handleErrorEvent_h)]).

(** The world of a new plugin once [init] has opened the subscription to
    [u]. *)
Definition opened (h : Host) (c : Config) (u : string) : World :=
  mkWorld [mkEventSource u (initListeners h) false]
          (mkConfig (numPages c) (JBool false))
          [Connect 0 u] true true true
          (Some (mkRealtime (Some 0%nat))) false (Some []).

(** The flag [init] clears is still cleared. *)
Definition conversionPending (w : World) : Prop :=
  conversionIsComplete (config w) = JBool false.

(** What [realtime.destroy()] does to an open subscription [id]. *)
Definition closeSubscription (id : nat) (w : World) : World :=
  set_realtime (Some (mkRealtime None))
    (emitEffect (Close id) (set_sources (alter closeSource id) w)).

(** No subscription was ever opened. *)
Definition unopened (w : World) : Prop := sources w = [] ∧ realtime w = None.

(** A viewer configuration and plugin configurations for examples. *)
Definition tenPages : Config := mkConfig (JNum 10) (JBool true).
Definition streamConfig : PluginConfig := mkPluginConfig (Some "https://view.example/stream").
Definition noStream : PluginConfig := mkPluginConfig None.

(** The invariant of a plugin lifetime: at most one subscription exists; its
    listeners have distinct event types; while it is open no terminal signal
    was fired and the plugin holds it; once it is closed at most one was
    fired. *)
Definition singleSubscription (w : World) : Prop :=
  match sources w with
  | [] => terminals (trace w) = 0%nat
  | [es] =>
      NoDup (es_listeners es).*1 ∧
      if es_closed es then (terminals (trace w) ≤ 1)%nat
      else terminals (trace w) = 0%nat ∧
           realtime w = Some (mkRealtime (Some 0%nat))
  | _ => False
  end.

(** The parts of the world a subscription's fate depends on are the same. *)
Definition sameSubscription (w w' : World) : Prop :=
  sources w' = sources w ∧ realtime w' = realtime w ∧
  terminals (trace w') = terminals (trace w).

(** [handleErrorEvent] from the statement after the [try] on, for the
    [data] the [try] produced. *)
Definition reportError (data : JSValue) : M unit :=
  api ← gets viewerAPI;
  (if api then
     err ← liftC (getProp data "error");
     modify (emitEffect (Fire "realtimeerror"
               (JObj [("error", jsOr err (JStr "unspecified error"))])))
   else throw TypeError);;
  realtime_destroy.

(** The double quote, and a string between double quotes. *)
Definition dquote : string := String "034" EmptyString.
Definition quoted (s : string) : string := dquote +:+ s +:+ dquote.

(** Payloads for examples: [{"pages":[3,1,2]}] and [{"error":"timeout"}]. *)
Definition pagesPayload : string := "{" +:+ quoted "pages" +:+ ":[3,1,2]}".
Definition timeoutPayload : string :=
  "{" +:+ quoted "error" +:+ ":" +:+ quoted "timeout" +:+ "}".

(** ** Vocabulary of the further properties *)

(** The gate's two operations, for interleavings of them. *)
Inductive GateOp : Type :=
| GEmit (m : Message)     (* broadcastMessageWhenReady(m.name, m.data) *)
| GReady.                 (* handleReadyMessage() *)

Definition gateStep (op : GateOp) (w : World) : World :=
  match op with
  | GEmit m => exec (broadcastMessageWhenReady (name m) (data m)) w
  | GReady => exec handleReadyMessage w
  end.

Definition gateRun (ops : list GateOp) (w : World) : World :=
  fold_left (fun w' op => gateStep op w') ops w.

(** The messages the operations emit, in order. *)
Fixpoint emitted (ops : list GateOp) : list Message :=
  match ops with
  | [] => []
  | GEmit m :: rest => m :: emitted rest
  | GReady :: rest => emitted rest
  end.

(** The suffix of the event types of the mode the host supports. *)
Definition mode (h : Host) : string := if support_svg h then "svg" else "png".

(** What holds of the subscription throughout a lifetime: there is at most
    one event source, its listeners are the ones [init] registered, and
    while it is open the plugin is active on it. *)
Definition lifeInv (h : Host) (w : World) : Prop :=
  match sources w with
  | [] => True
  | [es] => es_listeners es = initListeners h ∧ (es_closed es = false → active w 0)
  | _ => False
  end.

(** The plugin was destroyed: it holds no client and no queue, and every
    event source is closed. *)
Definition tornDown (w : World) : Prop :=
  realtime w = None ∧ messageQueue w = None ∧
  Forall (fun es => es_closed es = true) (sources w).

(** A broadcast of a [pageavailable] notification. *)
Definition isPageBroadcast (e : Effect) : Prop :=
  ∃ d, e = Broadcast "pageavailable" d.

(** Everything of the world but the trace and the queue is the same, and
    the trace grew by [pageavailable] broadcasts only. *)
Definition onlyPagesEmitted (w w' : World) : Prop :=
  sources w' = sources w ∧ config w' = config w ∧ util w' = util w ∧
  viewerConfig w' = viewerConfig w ∧ viewerAPI w' = viewerAPI w ∧
  realtime w' = realtime w ∧ ready w' = ready w ∧
  (is_Some (messageQueue w) → is_Some (messageQueue w')) ∧
  ∃ bs, trace w' = trace w ++ bs ∧ Forall isPageBroadcast bs.

(** The message the error handler reports for an event: the decoded
    [error] field, or the raw data when the payload does not decode, or
    ['unspecified error'] when that is falsy; [None] when reading the field
    throws. *)
Definition reportedError (h : Host) (ev : Event) : option JSValue :=
  match parseJSON h (ev_data ev) with
  | Some v =>
      match getProp v "error" with
      | Normal err => Some (jsOr err (JStr "unspecified error"))
      | Throw _ => None
      end
  | None => Some (jsOr (dataValue ev) (JStr "unspecified error"))
  end.

(** A broadcast on the host bus. *)
Definition isBroadcast (e : Effect) : Prop := ∃ n d, e = Broadcast n d.

(** The viewer is not ready and the host bus has received nothing. *)
Definition busSilent (w : World) : Prop :=
  ready w = false ∧ Forall (fun e => ¬ isBroadcast e) (trace w).

(** A [pageavailable] notification for one page. *)
Definition isPageMessage (m : Message) : Prop :=
  name m = "pageavailable" ∧ ∃ p, data m = JObj [("page", p)].

(** The world after the messages [ms] went through the gate of [w]:
    broadcast in order if the viewer is ready, appended in order to the
    queue (if there is one) if it is not. *)
Definition emittedPages (w : World) (ms : list Message) : World :=
  if ready w then emitEffects (toBroadcast <$> ms) w
  else set_messageQueue ((fun q => q ++ ms) <$> messageQueue w) w.

(** An open subscription with three page notifications waiting for the
    viewer, for examples. *)
Definition threePagesQueued : World :=
  set_messageQueue (Some (pageMessages [JNum 3; JNum 1; JNum 2]))
                   (opened browser tenPages "https://view.example/stream").

(** * Properties *)
(** ** The readiness gate *)

Lemma world_eq (w1 w2 : World) :
  sources w1 = sources w2 → config w1 = config w2 → trace w1 = trace w2 →
  util w1 = util w2 → viewerConfig w1 = viewerConfig w2 →
  viewerAPI w1 = viewerAPI w2 → realtime w1 = realtime w2 →
  ready w1 = ready w2 → messageQueue w1 = messageQueue w2 → w1 = w2.
Proof. destruct w1, w2; simpl; intros; subst; reflexivity. Qed.

Lemma emitEffects_nil (w : World) : emitEffects [] w = w.
Proof. apply world_eq; simpl; auto using app_nil_r. Qed.

Lemma emitEffects_app (es1 es2 : list Effect) (w : World) :
  emitEffects es2 (emitEffects es1 w) = emitEffects (es1 ++ es2) w.
Proof. apply world_eq; simpl; auto using app_assoc. Qed.

Lemma emitEffect_emitEffects (e : Effect) (w : World) :
  emitEffect e w = emitEffects [e] w.
Proof. reflexivity. Qed.

(** One turn of the [while] loop. *)
Lemma broadcastQueuedMessages_step (w : World) :
  broadcastQueuedMessages w =
  match messageQueue w with
  | None => (Throw TypeError, w)
  | Some [] => (Normal tt, w)
  | Some (message :: rest) =>
      broadcastQueuedMessages
        (exec (scope_broadcast (name message) (data message))
              (set_messageQueue (Some rest) w))
  end.
Proof.
  funelim (broadcastQueuedMessages w);
    match goal with E : messageQueue _ = _ |- _ => rewrite E end; reflexivity.
Qed.

(** The loop ends, having broadcast the whole queue from its head. *)
Lemma broadcastQueuedMessages_drains (q : list Message) (w : World) :
  messageQueue w = Some q →
  broadcastQueuedMessages w =
  (Normal tt, set_messageQueue (Some []) (emitEffects (toBroadcast <$> q) w)).
Proof.
  revert w. induction q as [|m q IH]; intros w Hq;
    rewrite broadcastQueuedMessages_step, Hq.
  - f_equal. apply world_eq; simpl; auto using app_nil_r.
  - rewrite IH by reflexivity. f_equal.
    apply world_eq; simpl; auto. by rewrite <- app_assoc.
Qed.

Lemma broadcastQueuedMessages_released (w : World) :
  messageQueue w = None → broadcastQueuedMessages w = (Throw TypeError, w).
Proof. intros Hq. by rewrite broadcastQueuedMessages_step, Hq. Qed.

Lemma handleReadyMessage_eq (w : World) :
  handleReadyMessage w = broadcastQueuedMessages (set_ready true w).
Proof. reflexivity. Qed.

Lemma emit_ready (n : string) (d : JSValue) (w : World) :
  ready w = true →
  broadcastMessageWhenReady n d w = (Normal tt, emitEffect (Broadcast n d) w).
Proof. intros Hr. unfold broadcastMessageWhenReady, bind, gets. by rewrite Hr. Qed.

Lemma emit_queued (n : string) (d : JSValue) (w : World) (q : list Message) :
  ready w = false → messageQueue w = Some q →
  broadcastMessageWhenReady n d w =
  (Normal tt, set_messageQueue (Some (q ++ [mkMessage n d])) w).
Proof.
  intros Hr Hq. unfold broadcastMessageWhenReady, bind, gets. by rewrite Hr, Hq.
Qed.

Lemma emit_released (n : string) (d : JSValue) (w : World) :
  ready w = false → messageQueue w = None →
  broadcastMessageWhenReady n d w = (Throw TypeError, w).
Proof.
  intros Hr Hq. unfold broadcastMessageWhenReady, bind, gets. by rewrite Hr, Hq.
Qed.

Lemma emitAll_queued (msgs : list Message) (w : World) (q : list Message) :
  ready w = false → messageQueue w = Some q →
  emitAll msgs w = (Normal tt, set_messageQueue (Some (q ++ msgs)) w).
Proof.
  revert w q. induction msgs as [|m msgs IH]; intros w q Hr Hq; simpl.
  - unfold ret. f_equal. apply world_eq; simpl; auto. by rewrite app_nil_r.
  - destruct m as [n d]. unfold bind. simpl.
    rewrite (emit_queued _ _ _ q) by done.
    rewrite (IH _ (q ++ [mkMessage n d])) by done. f_equal.
    apply world_eq; simpl; auto. by rewrite <- app_assoc.
Qed.

Lemma emitAll_released (msgs : list Message) (w : World) :
  ready w = false → messageQueue w = None → exec (emitAll msgs) w = w.
Proof.
  intros Hr Hq. destruct msgs as [|m msgs]; [done|].
  unfold exec. simpl. unfold bind. by rewrite emit_released.
Qed.

(** C1: notifications emitted while the viewer is not ready do not reach
    the host bus ([trace] is unchanged by any sequence of [emit] calls, so by
    each of its prefixes); the ready message then broadcasts the waiting
    notifications, and when the queue [q] exists these are [q] followed by
    the emitted ones, in emission order. *)
Theorem C1_queued_until_ready (w : World) (msgs : list Message) :
  ready w = false →
  let w1 := exec (emitAll msgs) w in
  trace w1 = trace w ∧
  trace (exec handleReadyMessage w1) = trace w ++ (toBroadcast <$> pending w1) ∧
  ∀ q, messageQueue w = Some q →
       emitAll msgs w = (Normal tt, set_messageQueue (Some (q ++ msgs)) w) ∧
       handleReadyMessage w1 =
       (Normal tt,
        set_ready true
          (set_messageQueue (Some [])
             (emitEffects (toBroadcast <$> (q ++ msgs)) w))).
Proof.
  intros Hr w1.
  destruct (messageQueue w) as [q|] eqn:Hq.
  - pose proof (emitAll_queued msgs w q Hr Hq) as He.
    assert (Hw1 : w1 = set_messageQueue (Some (q ++ msgs)) w)
      by (unfold w1, exec; by rewrite He).
    assert (Hd : handleReadyMessage w1 =
                 (Normal tt,
                  set_ready true
                    (set_messageQueue (Some [])
                       (emitEffects (toBroadcast <$> (q ++ msgs)) w)))).
    { rewrite handleReadyMessage_eq, Hw1.
      rewrite (broadcastQueuedMessages_drains (q ++ msgs)) by reflexivity.
      f_equal. }
    split; [by rewrite Hw1|]. split.
    + unfold exec. rewrite Hd, Hw1. reflexivity.
    + intros q' [= <-]. by split.
  - assert (Hw1 : w1 = w) by (by apply emitAll_released).
    split; [by rewrite Hw1|]. split; [|done].
    rewrite Hw1. unfold exec.
    rewrite handleReadyMessage_eq, broadcastQueuedMessages_released by done.
    unfold pending. rewrite Hq. simpl. by rewrite app_nil_r.
Qed.

(** ** Invariants of computations *)

Section Stable.
Variable P : World → Prop.

Lemma stable_ret {A} (a : A) : stable P (ret a).
Proof. by intros w. Qed.

Lemma stable_throw {A} (e : Error) : stable P (@throw A e).
Proof. by intros w. Qed.

Lemma stable_gets {A} (f : World → A) : stable P (gets f).
Proof. by intros w. Qed.

Lemma stable_liftC {A} (c : Completion A) : stable P (liftC c).
Proof. by intros w. Qed.

Lemma stable_modify (f : World → World) :
  (∀ w, P w → P (f w)) → stable P (modify f).
Proof. intros Hf w Hw. by apply Hf. Qed.

Lemma stable_bind {A B} (m : M A) (k : A → M B) :
  stable P m → (∀ a, stable P (k a)) → stable P (bind m k).
Proof.
  intros Hm Hk w Hw. specialize (Hm w Hw). unfold exec, bind in *.
  destruct (m w) as [[a|e] w']; simpl in *; [by apply Hk | done].
Qed.

Lemma stable_tryCatch {A} (m h : M A) :
  stable P m → stable P h → stable P (tryCatch m h).
Proof.
  intros Hm Hh w Hw. specialize (Hm w Hw). unfold exec, tryCatch in *.
  destruct (m w) as [[a|e] w']; simpl in *; [done | by apply Hh].
Qed.

Lemma stable_forLoop (body : nat → M unit) (count i : nat) :
  (∀ j, stable P (body j)) → stable P (forLoop count i body).
Proof.
  intros Hb. revert i. induction count as [|n IH]; intros i; simpl.
  - apply stable_ret.
  - apply stable_bind; auto.
Qed.
End Stable.

(** What each part of the plugin keeps, for an invariant [P] that the gate
    keeps and that does not depend on the listed parts of the world. *)
Section Plugin.
Variable P : World → Prop.
Variable h : Host.

Hypothesis P_emit : ∀ n d, stable P (broadcastMessageWhenReady n d).
Hypothesis P_ready : stable P handleReadyMessage.
Hypothesis P_effect : ∀ e w, P w → P (emitEffect e w).
Hypothesis P_sources : ∀ f w, P w → P (set_sources f w).
Hypothesis P_realtime : ∀ r w, P w → P (set_realtime r w).
Hypothesis P_config : stable P (setConversionIsComplete (JBool false)).
Hypothesis P_release : ∀ w, P w → P (releaseReferences w).

Lemma stable_updateAvailablePages (pages : JSValue) :
  stable P (updateAvailablePages h pages).
Proof using P_emit.
  apply stable_bind; [apply stable_liftC|]. intros len.
  apply stable_forLoop. intros j.
  apply stable_bind; [apply stable_liftC|]. intros page. apply P_emit.
Qed.

Lemma stable_util_parseJSON (ev : Event) : stable P (util_parseJSON h ev).
Proof.
  apply stable_bind; [apply stable_gets|]. intros [|]; [|apply stable_throw].
  destruct (parseJSON h (ev_data ev)); [apply stable_ret | apply stable_throw].
Qed.

Lemma stable_handlePageAvailableEvent (ev : Event) :
  stable P (handlePageAvailableEvent h ev).
Proof using P_emit.
  apply stable_bind; [apply stable_util_parseJSON|]. intros decoded.
  apply stable_bind; [apply stable_liftC|]. intros pages.
  apply stable_updateAvailablePages.
Qed.

Lemma stable_EventSource_close (id : nat) : stable P (EventSource_close id).
Proof using P_effect P_sources.
  apply stable_bind; intros; apply stable_modify; auto.
Qed.

Lemma stable_Realtime_destroy (this : Realtime) : stable P (Realtime_destroy this).
Proof using P_effect P_sources.
  unfold Realtime_destroy. destruct (eventSource this); [|apply stable_ret].
  apply stable_bind; [apply stable_EventSource_close|]. intros. apply stable_ret.
Qed.

Lemma stable_realtime_destroy : stable P realtime_destroy.
Proof using P_effect P_sources P_realtime.
  apply stable_bind; [apply stable_gets|]. intros [this|]; [|apply stable_throw].
  apply stable_bind; [apply stable_Realtime_destroy|]. intros.
  apply stable_modify; auto.
Qed.

Lemma stable_viewerAPI_fire (n : string) (d : JSValue) : stable P (viewerAPI_fire n d).
Proof using P_effect.
  apply stable_bind; [apply stable_gets|]. intros [|]; [|apply stable_throw].
  apply stable_modify; auto.
Qed.

Lemma stable_handleFinishedEvent : stable P handleFinishedEvent.
Proof using P_emit P_effect P_sources P_realtime.
  apply stable_bind; [apply stable_gets|]. intros vc.
  apply stable_bind.
  { destruct vc; [|apply stable_throw].
    apply stable_bind; [apply stable_gets|]. intros. apply P_emit. }
  intros _. apply stable_bind; [apply stable_viewerAPI_fire|]. intros _.
  apply stable_realtime_destroy.
Qed.

Lemma stable_handleErrorEvent (ev : Event) : stable P (handleErrorEvent h ev).
Proof using P_effect P_sources P_realtime.
  apply stable_bind.
  { apply stable_tryCatch; [apply stable_util_parseJSON | apply stable_ret]. }
  intros data. apply stable_bind; [apply stable_gets|]. intros api.
  apply stable_bind; [|intros; apply stable_realtime_destroy].
  destruct api; [|apply stable_throw].
  apply stable_bind; [apply stable_liftC|]. intros. apply stable_modify; auto.
Qed.

Lemma stable_runHandler (hd : Handler) (ev : Event) : stable P (runHandler h hd ev).
Proof using P_emit P_effect P_sources P_realtime.
  destruct hd; simpl;
    auto using stable_handlePageAvailableEvent, stable_handleFinishedEvent,
               stable_handleErrorEvent.
Qed.

Lemma deliver_keeps (id : nat) (ev : Event) (w : World) :
  P w → P (deliver h id ev w).
Proof using P_emit P_effect P_sources P_realtime.
  intros Hw. unfold deliver. destruct (sources w !! id) as [es|]; [|done].
  destruct (es_closed es); [done|].
  revert w Hw. induction (listenersFor (ev_type ev) es) as [|hd l IH];
    intros w Hw; simpl; [done|].
  apply IH. by apply stable_runHandler.
Qed.

Lemma stable_realtime_on (n : string) (hd : Handler) : stable P (realtime_on n hd).
Proof using P_sources.
  apply stable_bind; [apply stable_gets|]. intros [this|]; [|apply stable_throw].
  unfold Realtime_on. destruct (eventSource this); [|apply stable_throw].
  apply stable_modify; auto.
Qed.

Lemma stable_Realtime_new (u : string) : stable P (Realtime_new h u).
Proof using P_effect P_sources.
  unfold Realtime_new. destruct (window_EventSource h); [|apply stable_throw].
  apply stable_bind; [|intros; apply stable_ret].
  unfold EventSource_new. destruct (urlResolves h u); [|apply stable_throw].
  apply stable_bind; [apply stable_gets|]. intros.
  apply stable_bind; [apply stable_modify; auto|]. intros.
  apply stable_bind; [apply stable_modify; auto|]. intros. apply stable_ret.
Qed.

Lemma stable_registerBoxViewPageEventHandlers :
  stable P (registerBoxViewPageEventHandlers h).
Proof using P_sources.
  unfold registerBoxViewPageEventHandlers.
  destruct (support_svg h);
    repeat (apply stable_bind; [apply stable_realtime_on | intros _]);
    apply stable_realtime_on.
Qed.

Lemma stable_init (cfg : PluginConfig) : stable P (init h cfg).
Proof using P_effect P_sources P_realtime P_config.
  unfold init. destruct (configured cfg); [|apply stable_ret].
  apply stable_bind; [apply stable_Realtime_new|]. intros this.
  apply stable_bind; [apply stable_modify; auto|]. intros _.
  apply stable_bind; [apply stable_realtime_on|]. intros _.
  apply stable_bind; [apply P_config|]. intros _.
  apply stable_registerBoxViewPageEventHandlers.
Qed.

Lemma stable_destroy : stable P destroy.
Proof using P_effect P_sources P_realtime P_release.
  apply stable_bind; [apply stable_gets|]. intros r.
  apply stable_bind; [|intros; apply stable_modify; auto].
  destruct r as [this|]; [|apply stable_ret].
  apply stable_bind; [apply stable_Realtime_destroy|]. intros.
  apply stable_modify; auto.
Qed.

Lemma step_keeps (op : Op) (w : World) : P w → P (step h op w).
Proof using P_emit P_ready P_effect P_sources P_realtime P_release.
  destruct op; simpl; intros Hw.
  - by apply P_ready.
  - by apply deliver_keeps.
  - by apply stable_destroy.
Qed.

Lemma run_keeps (ops : list Op) (w : World) : P w → P (run h ops w).
Proof using P_emit P_ready P_effect P_sources P_realtime P_release.
  revert w. induction ops as [|op ops IH]; intros w Hw; simpl; [done|].
  apply IH. by apply step_keeps.
Qed.
End Plugin.

(** ** The ready message, again *)

Lemma handleReadyMessage_drains (w : World) : drained (exec handleReadyMessage w).
Proof.
  unfold exec. rewrite handleReadyMessage_eq.
  destruct (messageQueue w) as [q|] eqn:Hq.
  - by rewrite (broadcastQueuedMessages_drains q).
  - rewrite broadcastQueuedMessages_released by done.
    split; [done|]. unfold pending. simpl. by rewrite Hq.
Qed.

Lemma handleReadyMessage_drained (w : World) :
  drained w → exec handleReadyMessage w = w.
Proof.
  intros [Hr Hp]. unfold exec. rewrite handleReadyMessage_eq.
  assert (Hw : set_ready true w = w) by (by apply world_eq).
  rewrite Hw. rewrite broadcastQueuedMessages_step.
  unfold pending in Hp. destruct (messageQueue w) as [[|m q]|]; done.
Qed.

Lemma drained_emit (n : string) (d : JSValue) : stable drained (broadcastMessageWhenReady n d).
Proof.
  intros w [Hr Hp]. unfold exec. by rewrite emit_ready.
Qed.

Lemma drained_run (h : Host) (ops : list Op) (w : World) :
  drained w → drained (run h ops w).
Proof.
  apply run_keeps.
  - apply drained_emit.
  - intros w' Hw'. by rewrite handleReadyMessage_drained.
  - by intros e w' [??].
  - by intros f w' [??].
  - by intros r w' [??].
  - by intros w' [??].
Qed.

(** C4: once the ready message was handled (from any queue state [w]),
    handling it again, at once or after any further operations, changes
    nothing: no notification is broadcast a second time. *)
Theorem C4_markReady_idempotent (h : Host) (w : World) (ops : list Op) :
  let w1 := exec handleReadyMessage w in
  let w2 := run h ops w1 in
  exec handleReadyMessage w1 = w1 ∧
  exec handleReadyMessage w2 = w2 ∧
  trace (exec handleReadyMessage w2) = trace w2.
Proof.
  intros w1 w2.
  assert (H1 : drained w1) by apply handleReadyMessage_drains.
  assert (H2 : drained w2) by (by apply drained_run).
  rewrite !handleReadyMessage_drained by done. done.
Qed.

(** ** The gate's invariant *)

Lemma gateInv_create (c : Config) : gateInv (create c).
Proof. by exists []. Qed.

Lemma gateInv_emit (n : string) (d : JSValue) : stable gateInv (broadcastMessageWhenReady n d).
Proof.
  intros w (q & Hq & Hr). unfold exec. destruct (ready w) eqn:Hready.
  - rewrite emit_ready by done. exists q. split; [done | auto].
  - rewrite (emit_queued _ _ _ q) by done. eexists. split; [done|].
    simpl. congruence.
Qed.

Lemma gateInv_ready : stable gateInv handleReadyMessage.
Proof.
  intros w (q & Hq & Hr). unfold exec.
  rewrite handleReadyMessage_eq, (broadcastQueuedMessages_drains q) by done.
  by exists [].
Qed.

Lemma gateInv_config (v : JSValue) : stable gateInv (setConversionIsComplete v).
Proof.
  apply stable_bind; [apply stable_gets|]. intros [|]; [|apply stable_throw].
  by apply stable_modify.
Qed.

(** C10: the gate's invariant (a queue exists, and it is empty whenever the
    ready flag is set) is kept by [emit], by the ready message, by every
    event handler and event delivery, and by [init]; the ready message
    leaves the flag set and the queue empty, and [emit] leaves the queue
    empty once the flag is set.  After [destroy] nothing is pending. *)
Theorem C10_gate_invariant (h : Host) (w : World) :
  gateInv w →
  (∀ n d, gateInv (exec (broadcastMessageWhenReady n d) w)) ∧
  (ready w = true →
   ∀ n d, messageQueue (exec (broadcastMessageWhenReady n d) w) = Some []) ∧
  gateInv (exec handleReadyMessage w) ∧
  ready (exec handleReadyMessage w) = true ∧
  messageQueue (exec handleReadyMessage w) = Some [] ∧
  (∀ hd ev, gateInv (exec (runHandler h hd ev) w)) ∧
  (∀ id ev, gateInv (deliver h id ev w)) ∧
  (∀ cfg, gateInv (exec (init h cfg) w)) ∧
  pending (exec destroy w) = [].
Proof.
  intros Hw.
  assert (He : ∀ e w', gateInv w' → gateInv (emitEffect e w')) by done.
  assert (Hs : ∀ f w', gateInv w' → gateInv (set_sources f w')) by done.
  assert (Hrt : ∀ r w', gateInv w' → gateInv (set_realtime r w')) by done.
  repeat split.
  - intros n d. by apply gateInv_emit.
  - intros Hr n d. destruct Hw as (q & Hq & Hqr). unfold exec.
    rewrite emit_ready by done. simpl. by rewrite Hq, Hqr.
  - by apply gateInv_ready.
  - apply handleReadyMessage_drains.
  - destruct Hw as (q & Hq & _). unfold exec.
    by rewrite handleReadyMessage_eq, (broadcastQueuedMessages_drains q).
  - intros hd ev. apply stable_runHandler; auto using gateInv_emit.
  - intros id ev. apply deliver_keeps; auto using gateInv_emit.
  - intros cfg. apply stable_init; auto using gateInv_config.
  - unfold exec, destroy, bind, gets, modify.
    destruct (realtime w) as [this|]; [|done].
    unfold Realtime_destroy. by destruct (eventSource this).
Qed.

(** ** Initialisation *)

Lemma init_unconfigured (h : Host) (cfg : PluginConfig) (w : World) :
  configured cfg = None → init h cfg w = (Normal tt, w).
Proof. intros Hc. unfold init. by rewrite Hc. Qed.

Lemma init_opens (h : Host) (c : Config) (cfg : PluginConfig) (u : string) :
  configured cfg = Some u → window_EventSource h = true → urlResolves h u = true →
  init h cfg (create c) = (Normal tt, opened h c u).
Proof.
  intros Hc He Hu. unfold init, Realtime_new, EventSource_new, bind.
  rewrite Hc, He, Hu. unfold opened, initListeners, registerBoxViewPageEventHandlers.
  by destruct (support_svg h).
Qed.

Lemma init_unsupported (h : Host) (cfg : PluginConfig) (u : string) (w : World) :
  configured cfg = Some u → window_EventSource h = false →
  init h cfg w =
  (Throw (PluginError "Realtime plugin requires EventSource support"), w).
Proof.
  intros Hc He. unfold init, Realtime_new, bind. by rewrite Hc, He.
Qed.

Lemma init_bad_url (h : Host) (cfg : PluginConfig) (u : string) (w : World) :
  configured cfg = Some u → window_EventSource h = true → urlResolves h u = false →
  init h cfg w = (Throw UrlError, w).
Proof.
  intros Hc He Hu. unfold init, Realtime_new, EventSource_new, bind.
  by rewrite Hc, He, Hu.
Qed.

(** The event types [init] listens to, and the handler of each: the generic
    [error] and the three types of the one mode the host supports. *)
Lemma initListeners_routes (h : Host) (u : string) :
  let es := mkEventSource u (initListeners h) false in
  let mode := if support_svg h then "svg" else "png" in
  let other := if support_svg h then "png" else "svg" in
  listenersFor "error" es = [handleErrorEvent_h] ∧
  listenersFor ("pageavailable." +:+ mode) es = [handlePageAvailableEvent_h] ∧
  listenersFor ("finished." +:+ mode) es = [handleFinishedEvent_h] ∧
  listenersFor ("failed." +:+ mode) es = [handleErrorEvent_h] ∧
  listenersFor ("pageavailable." +:+ other) es = [] ∧
  listenersFor ("finished." +:+ other) es = [] ∧
  listenersFor ("failed." +:+ other) es = [].
Proof. unfold initListeners. destruct (support_svg h); by vm_compute. Qed.

(** A new plugin after [init]: untouched, or holding one open subscription. *)
Lemma init_create_cases (h : Host) (c : Config) (cfg : PluginConfig) :
  exec (init h cfg) (create c) = create c ∨
  ∃ u, configured cfg = Some u ∧ exec (init h cfg) (create c) = opened h c u.
Proof.
  unfold exec. destruct (configured cfg) as [u|] eqn:Hc.
  - destruct (window_EventSource h) eqn:He.
    + destruct (urlResolves h u) eqn:Hu.
      * right. exists u. by rewrite (init_opens h c cfg u).
      * left. by rewrite (init_bad_url h cfg u).
    + left. by rewrite (init_unsupported h cfg u).
  - left. by rewrite init_unconfigured.
Qed.

(** The ready message touches neither the subscription nor the viewer
    configuration, and fires nothing on the host API. *)
Lemma terminals_app (t1 t2 : list Effect) :
  terminals (t1 ++ t2) = (terminals t1 + terminals t2)%nat.
Proof. unfold terminals. by rewrite filter_app, length_app. Qed.

Lemma terminals_broadcasts (q : list Message) : terminals (toBroadcast <$> q) = 0%nat.
Proof. induction q as [|m q IH]; [done|]. exact IH. Qed.

Lemma handleReadyMessage_frame (w : World) :
  let w' := exec handleReadyMessage w in
  sources w' = sources w ∧ realtime w' = realtime w ∧ config w' = config w ∧
  terminals (trace w') = terminals (trace w).
Proof.
  unfold exec. rewrite handleReadyMessage_eq.
  destruct (messageQueue w) as [q|] eqn:Hq.
  - rewrite (broadcastQueuedMessages_drains q) by done. simpl.
    rewrite terminals_app, terminals_broadcasts. auto with lia.
  - by rewrite broadcastQueuedMessages_released.
Qed.

Lemma emit_frame (n : string) (d : JSValue) (w : World) :
  let w' := exec (broadcastMessageWhenReady n d) w in
  sources w' = sources w ∧ realtime w' = realtime w ∧ config w' = config w ∧
  terminals (trace w') = terminals (trace w).
Proof.
  unfold exec, broadcastMessageWhenReady, bind, gets.
  destruct (ready w); simpl.
  - rewrite terminals_app. simpl. auto with lia.
  - by destruct (messageQueue w).
Qed.

(** ** The conversion flag *)

Lemma conversionPending_run (h : Host) (ops : list Op) (w : World) :
  conversionPending w → conversionPending (run h ops w).
Proof.
  apply run_keeps; try done.
  - intros n d w' Hw'. unfold conversionPending.
    by rewrite (proj1 (proj2 (proj2 (emit_frame n d w')))).
  - intros w' Hw'. unfold conversionPending.
    by rewrite (proj1 (proj2 (proj2 (handleReadyMessage_frame w')))).
Qed.

(** C9: as amended to what the code does. When [init] is given a URL and the stream
    client can be constructed (the host has EventSource and accepts the
    URL), [init] sets [conversionIsComplete] to [false], and it is still
    [false] after any operations of the plugin's lifetime; no handler
    changes it. *)
Theorem C9_conversion_incomplete (h : Host) (c : Config) (cfg : PluginConfig) (u : string) :
  configured cfg = Some u →
  window_EventSource h = true →
  urlResolves h u = true →
  conversionIsComplete (config (exec (init h cfg) (create c))) = JBool false ∧
  (∀ ops, conversionIsComplete (config (lifetime h c cfg ops)) = JBool false) ∧
  (∀ w hd ev, conversionPending w → conversionPending (exec (runHandler h hd ev) w)).
Proof.
  intros Hc He Hu.
  assert (Hi : exec (init h cfg) (create c) = opened h c u)
    by (unfold exec; by rewrite (init_opens h c cfg u)).
  split; [by rewrite Hi|]. split.
  - intros ops. unfold lifetime. rewrite Hi.
    by apply conversionPending_run.
  - intros w hd ev. apply stable_runHandler; try done.
    intros n d w' Hw'. unfold conversionPending.
    by rewrite (proj1 (proj2 (proj2 (emit_frame n d w')))).
Qed.

(** C9: as stated it fails where the host lacks EventSource: [init] is given a
    URL, throws at construction, and the flag keeps its value [true]. *)
Lemma C9_init_without_EventSource :
  configured streamConfig = Some "https://view.example/stream" ∧
  completion (init oldBrowser streamConfig) (create tenPages) =
    Throw (PluginError "Realtime plugin requires EventSource support") ∧
  conversionIsComplete (config (exec (init oldBrowser streamConfig) (create tenPages)))
    = JBool true.
Proof. by vm_compute. Qed.

(** ** Construction without EventSource *)

Lemma unopened_step (h : Host) (op : Op) (w : World) :
  unopened w → unopened (step h op w).
Proof.
  intros [Hs Hr]. destruct op; simpl.
  - unfold onmessage, unopened.
    destruct (handleReadyMessage_frame w) as (Hs' & Hr' & _). by rewrite Hs', Hr'.
  - unfold deliver. by rewrite Hs.
  - unfold exec, destroy, bind, gets. by rewrite Hr.
Qed.

Lemma unopened_run (h : Host) (ops : list Op) (w : World) :
  unopened w → unopened (run h ops w).
Proof.
  revert w. induction ops as [|op ops IH]; intros w Hw; simpl; [done|].
  apply IH. by apply unopened_step.
Qed.

(** C8: where the host has no EventSource, constructing the client throws
    and changes nothing, so no subscription exists; [init] does not catch
    the exception; and nothing in the rest of the plugin's lifetime opens a
    subscription either. *)
Theorem C8_requires_EventSource (h : Host) (u : string) (w : World) :
  window_EventSource h = false →
  Realtime_new h u w =
    (Throw (PluginError "Realtime plugin requires EventSource support"), w) ∧
  (∀ cfg, configured cfg = Some u →
          init h cfg w =
          (Throw (PluginError "Realtime plugin requires EventSource support"), w)) ∧
  (∀ c cfg ops, configured cfg = Some u →
                sources (lifetime h c cfg ops) = [] ∧
                realtime (lifetime h c cfg ops) = None).
Proof.
  intros He. split; [|split].
  - unfold Realtime_new. by rewrite He.
  - intros cfg Hc. by apply (init_unsupported h cfg u).
  - intros c cfg ops Hc. unfold lifetime, exec.
    rewrite (init_unsupported h cfg u) by done. simpl.
    by apply unopened_run.
Qed.

(** ** Teardown *)

Lemma Realtime_destroy_closed (w : World) :
  Realtime_destroy (mkRealtime None) w = (Normal (mkRealtime None), w).
Proof. reflexivity. Qed.

Lemma destroy_eq (w : World) :
  destroy w =
  (Normal tt,
   releaseReferences
     (set_realtime None
        (match realtime w with
         | Some this => exec (Realtime_destroy this) w
         | None => w
         end))).
Proof.
  unfold destroy, bind, gets, modify. destruct (realtime w) as [this|] eqn:Hr.
  - unfold Realtime_destroy, exec. by destruct (eventSource this).
  - f_equal. apply world_eq; simpl; auto.
Qed.

(** C7: destroying a client whose subscription is closed changes nothing,
    and every client is in that state after its first destroy; the
    plugin's [destroy] never throws, whatever the state, and a repeated
    call changes nothing; with no URL configured, [init] opens nothing and
    [destroy] only drops the plugin's references: nothing is closed and
    nothing reaches the host. *)
Theorem C7_teardown_idempotent (h : Host) (c : Config) (cfg : PluginConfig)
    (w : World) (this : Realtime) :
  configured cfg = None →
  Realtime_destroy (mkRealtime None) w = (Normal (mkRealtime None), w) ∧
  completion (Realtime_destroy this) w = Normal (mkRealtime None) ∧
  completion destroy w = Normal tt ∧
  destroy (exec destroy w) = (Normal tt, exec destroy w) ∧
  exec (init h cfg) (create c) = create c ∧
  destroy (exec (init h cfg) (create c)) = (Normal tt, releaseReferences (create c)) ∧
  (∀ n : nat, Nat.iter (S n) (exec destroy) (exec (init h cfg) (create c)) =
              releaseReferences (create c)).
Proof.
  intros Hc.
  assert (Hi : exec (init h cfg) (create c) = create c)
    by (unfold exec; by rewrite init_unconfigured).
  repeat split.
  - unfold completion, Realtime_destroy. destruct this as [[id|]]; done.
  - unfold completion. by rewrite destroy_eq.
  - unfold exec. rewrite !destroy_eq. simpl. f_equal.
  - done.
  - by rewrite Hi.
  - rewrite Hi. induction n as [|n IH]; [done|].
    change (Nat.iter (S (S n)) (exec destroy) (create c))
      with (exec destroy (Nat.iter (S n) (exec destroy) (create c))).
    by rewrite IH.
Qed.

(** ** Page notifications *)





(** ** The terminal handlers *)

Lemma closeSubscription_closed (id : nat) (w : World) (es : EventSource) :
  sources w !! id = Some es →
  sources (closeSubscription id w) !! id = Some (closeSource es).
Proof. intros Hs. simpl. by rewrite list_lookup_alter_eq, Hs. Qed.

Lemma realtime_destroy_open (id : nat) (w : World) :
  realtime w = Some (mkRealtime (Some id)) →
  realtime_destroy w = (Normal tt, closeSubscription id w).
Proof.
  intros Hr. unfold realtime_destroy, bind, gets. by rewrite Hr.
Qed.

Lemma deliver_closed (h : Host) (id : nat) (ev : Event) (w : World) (es : EventSource) :
  sources w !! id = Some es → es_closed es = true → deliver h id ev w = w.
Proof. intros Hs Hc. unfold deliver. by rewrite Hs, Hc. Qed.

Lemma deliver_all_closed (h : Host) (id : nat) (evs : list Event) (w : World)
    (es : EventSource) :
  sources w !! id = Some es → es_closed es = true →
  fold_left (fun w' ev => deliver h id ev w') evs w = w.
Proof.
  intros Hs Hc. induction evs as [|ev evs IH]; simpl; [done|].
  by rewrite (deliver_closed h id ev w es).
Qed.

(** C2: as amended to what the code does (the notification goes to the
    gate, not always to the host bus).  In the active plugin the [finished]
    handler first emits the
    notification [{upto: numPages}] through the gate (a broadcast when the
    viewer is ready, an entry at the back of the queue when it is not),
    then fires [realtimecomplete] on the host API, then closes the
    subscription; it returns normally, and afterwards the closed
    subscription dispatches none of the events delivered on it. *)
Theorem C2_finished_then_closed (h : Host) (w : World) (id : nat) :
  active w id →
  let upto := JObj [("upto", numPages (config w))] in
  let w1 := exec (broadcastMessageWhenReady "pageavailable" upto) w in
  let w' := closeSubscription id (emitEffect (Fire "realtimecomplete" JUndefined) w1) in
  handleFinishedEvent w = (Normal tt, w') ∧
  (ready w = true →
   trace w' = trace w ++ [Broadcast "pageavailable" upto;
                          Fire "realtimecomplete" JUndefined; Close id]) ∧
  (ready w = false →
   trace w' = trace w ++ [Fire "realtimecomplete" JUndefined; Close id] ∧
   messageQueue w' = Some (pending w ++ [mkMessage "pageavailable" upto])) ∧
  (∃ es, sources w' !! id = Some es ∧ es_closed es = true) ∧
  (∀ evs, fold_left (fun w'' ev => deliver h id ev w'') evs w' = w').
Proof.
  intros (Hrt & (es & Hs & Hopen) & Hu & Hvc & Hapi & [q Hq]) upto w1 w'.
  assert (Hemit : broadcastMessageWhenReady "pageavailable" upto w = (Normal tt, w1)).
  { unfold w1, exec. destruct (ready w) eqn:Hr.
    - by rewrite emit_ready.
    - by rewrite (emit_queued _ _ _ q). }
  assert (Hframe : viewerAPI w1 = true ∧ realtime w1 = realtime w ∧
                   sources w1 = sources w).
  { unfold w1, exec. destruct (ready w) eqn:Hr.
    - by rewrite emit_ready.
    - by rewrite (emit_queued _ _ _ q). }
  destruct Hframe as (Hapi1 & Hrt1 & Hs1).
  assert (Hclosed : sources w' !! id = Some (closeSource es)).
  { apply closeSubscription_closed. simpl. by rewrite Hs1. }
  repeat split.
  - unfold handleFinishedEvent, bind at 1, gets at 1. rewrite Hvc.
    unfold bind at 1. unfold bind at 1, gets at 1. fold upto. rewrite Hemit.
    unfold bind at 1, viewerAPI_fire, bind at 1, gets at 1. rewrite Hapi1.
    unfold modify at 1. rewrite realtime_destroy_open with (id := id); [done|].
    simpl. by rewrite Hrt1.
  - intros Hr. unfold w', w1, exec. rewrite emit_ready by done. simpl.
    by rewrite <- !app_assoc.
  - unfold w', w1, exec. rewrite (emit_queued _ _ _ q) by done. simpl.
    by rewrite <- !app_assoc.
  - unfold w', w1, exec. rewrite (emit_queued _ _ _ q) by done. simpl.
    unfold pending. by rewrite Hq.
  - by exists (closeSource es).
  - intros evs. by apply (deliver_all_closed h id evs w' (closeSource es)).
Qed.

(** C2: as stated it fails before the viewer is ready.  On the open
    subscription of a new plugin the [finished] handler broadcasts nothing:
    the host gets [realtimecomplete] and the subscription is closed while
    [{upto: 10}] waits in the queue; the host bus gets it only with a later
    ready message, after the completion signal, and never if the plugin is
    destroyed first. *)
Lemma C2_upto_waits_for_ready :
  active (opened browser tenPages "https://view.example/stream") 0 ∧
  ready (opened browser tenPages "https://view.example/stream") = false ∧
  handleFinishedEvent (opened browser tenPages "https://view.example/stream")
  = (Normal tt,
     mkWorld [mkEventSource "https://view.example/stream" (initListeners browser) true]
             (mkConfig (JNum 10) (JBool false))
             [Connect 0 "https://view.example/stream";
              Fire "realtimecomplete" JUndefined; Close 0]
             true true true (Some (mkRealtime None)) false
             (Some [mkMessage "pageavailable" (JObj [("upto", JNum 10)])])) ∧
  trace (lifetime browser tenPages streamConfig
           [OpDeliver 0 (mkEvent "finished.svg" None); OpReady])
  = [Connect 0 "https://view.example/stream";
     Fire "realtimecomplete" JUndefined; Close 0;
     Broadcast "pageavailable" (JObj [("upto", JNum 10)])] ∧
  trace (lifetime browser tenPages streamConfig
           [OpDeliver 0 (mkEvent "finished.svg" None); OpDestroy; OpReady])
  = [Connect 0 "https://view.example/stream";
     Fire "realtimecomplete" JUndefined; Close 0].
Proof.
  split.
  { repeat split; try reflexivity; eexists; [split|]; reflexivity. }
  by vm_compute.
Qed.

(** The [error] and [failed] handler: what it reports, and when it throws
    instead. *)
Lemma handleErrorEvent_decoded (h : Host) (w : World) (id : nat) (ev : Event)
    (v err : JSValue) :
  active w id →
  parseJSON h (ev_data ev) = Some v →
  getProp v "error" = Normal err →
  handleErrorEvent h ev w =
  (Normal tt,
   closeSubscription id
     (emitEffect (Fire "realtimeerror"
                    (JObj [("error", jsOr err (JStr "unspecified error"))])) w)).
Proof.
  intros (Hrt & _ & Hu & _ & Hapi & _) Hp He.
  cbv [handleErrorEvent bind tryCatch util_parseJSON gets ret liftC modify].
  rewrite Hu, Hp, Hapi, He.
  by rewrite realtime_destroy_open with (id := id).
Qed.

Lemma handleErrorEvent_raw (h : Host) (w : World) (id : nat) (ev : Event) :
  active w id →
  parseJSON h (ev_data ev) = None →
  handleErrorEvent h ev w =
  (Normal tt,
   closeSubscription id
     (emitEffect (Fire "realtimeerror"
                    (JObj [("error", jsOr (dataValue ev) (JStr "unspecified error"))])) w)).
Proof.
  intros (Hrt & _ & Hu & _ & Hapi & _) Hp.
  cbv [handleErrorEvent bind tryCatch util_parseJSON gets ret throw liftC modify].
  rewrite Hu, Hp, Hapi. simpl.
  by rewrite realtime_destroy_open with (id := id).
Qed.

(** A payload that decodes to [null] makes [data.error] throw: nothing is
    fired and the subscription stays open. *)
Lemma handleErrorEvent_null (h : Host) (w : World) (ev : Event) (v : JSValue) :
  util w = true →
  parseJSON h (ev_data ev) = Some v →
  v = JNull ∨ v = JUndefined →
  handleErrorEvent h ev w = (Throw TypeError, w).
Proof.
  intros Hu Hp Hv.
  cbv [handleErrorEvent bind tryCatch util_parseJSON gets ret liftC modify throw].
  rewrite Hu, Hp. destruct (viewerAPI w); [|done].
  by destruct Hv as [-> | ->].
Qed.

(** ** One terminal signal *)

Lemma listenersFor_none (ty : string) (l : list (string * Handler)) :
  ty ∉ l.*1 → filter (fun x => x.1 = ty) l = [].
Proof.
  induction l as [|[k hd] l IH]; intros Hn; [done|].
  rewrite filter_cons. simpl in *. rewrite not_elem_of_cons in Hn.
  destruct Hn as [Hne Hn]. destruct (decide (k = ty)); [congruence | auto].
Qed.

(** Listeners with distinct types: at most one runs for an event. *)
Lemma listenersFor_cases (ty : string) (es : EventSource) :
  NoDup (es_listeners es).*1 →
  listenersFor ty es = [] ∨ ∃ hd, listenersFor ty es = [hd].
Proof.
  unfold listenersFor. induction (es_listeners es) as [|[k hd] l IH]; intros Hnd.
  - by left.
  - simpl in Hnd. apply NoDup_cons in Hnd as [Hk Hnd].
    rewrite filter_cons. simpl. destruct (decide (k = ty)) as [->|Hne].
    + right. exists hd. by rewrite listenersFor_none.
    + by apply IH.
Qed.

Lemma sameSubscription_refl (w : World) : sameSubscription w w.
Proof. done. Qed.

Lemma sameSubscription_keeps (w w' : World) :
  sameSubscription w w' → singleSubscription w → singleSubscription w'.
Proof.
  intros (Hs & Hr & Ht). unfold singleSubscription. by rewrite Hs, Hr, Ht.
Qed.

Lemma sameSubscription_emit (w0 : World) (n : string) (d : JSValue) :
  stable (sameSubscription w0) (broadcastMessageWhenReady n d).
Proof.
  intros w (Hs & Hr & Ht). destruct (emit_frame n d w) as (Hs' & Hr' & _ & Ht').
  unfold sameSubscription. by rewrite Hs', Hr', Ht'.
Qed.

Lemma handleFinishedEvent_outcome (w : World) (id : nat) :
  realtime w = Some (mkRealtime (Some id)) →
  ∃ w1, sameSubscription w w1 ∧
        (exec handleFinishedEvent w = w1 ∨
         exec handleFinishedEvent w =
         closeSubscription id (emitEffect (Fire "realtimecomplete" JUndefined) w1)).
Proof.
  intros Hrt.
  set (upto := JObj [("upto", numPages (config w))]).
  pose proof (sameSubscription_emit w "pageavailable" upto w
                (sameSubscription_refl w)) as Hsame.
  unfold exec in *.
  cbv [handleFinishedEvent bind gets viewerAPI_fire modify throw].
  destruct (viewerConfig w); [|by exists w; split; [|left]].
  fold upto.
  destruct (broadcastMessageWhenReady "pageavailable" upto w) as [[[]|e] w1];
    simpl in Hsame; exists w1; (split; [done|]); [|by left].
  destruct (viewerAPI w1); [|by left].
  right. rewrite realtime_destroy_open with (id := id); [done|].
  simpl. destruct Hsame as (_ & -> & _). done.
Qed.

Lemma handleErrorEvent_split (h : Host) (ev : Event) :
  handleErrorEvent h ev =
  bind (tryCatch (util_parseJSON h ev) (ret (JObj [("error", dataValue ev)])))
       reportError.
Proof. reflexivity. Qed.

(** The [try] statement always yields a value and changes nothing. *)
Lemma decode_or_raw (h : Host) (ev : Event) (w : World) :
  ∃ data, tryCatch (util_parseJSON h ev) (ret (JObj [("error", dataValue ev)])) w
          = (Normal data, w).
Proof.
  cbv [tryCatch util_parseJSON bind gets ret throw].
  destruct (util w); [destruct (parseJSON h (ev_data ev))|]; eauto.
Qed.

Lemma reportError_outcome (data : JSValue) (w : World) (id : nat) :
  realtime w = Some (mkRealtime (Some id)) →
  exec (reportError data) w = w ∨
  ∃ d, exec (reportError data) w =
       closeSubscription id (emitEffect (Fire "realtimeerror" d) w).
Proof.
  intros Hrt. unfold exec. cbv [reportError bind gets liftC modify throw].
  destruct (viewerAPI w); [|by left].
  destruct (getProp data "error") as [err|e]; [|by left].
  right. eexists. by rewrite realtime_destroy_open with (id := id).
Qed.

Lemma handleErrorEvent_outcome (h : Host) (ev : Event) (w : World) (id : nat) :
  realtime w = Some (mkRealtime (Some id)) →
  exec (handleErrorEvent h ev) w = w ∨
  ∃ d, exec (handleErrorEvent h ev) w =
       closeSubscription id (emitEffect (Fire "realtimeerror" d) w).
Proof.
  intros Hrt. rewrite handleErrorEvent_split.
  destruct (decode_or_raw h ev w) as [data Hd].
  unfold exec, bind. rewrite Hd. by apply reportError_outcome.
Qed.

Lemma terminals_snoc (t : list Effect) (e : Effect) :
  terminals (t ++ [e]) = (terminals t + (if isTerminal e then 1 else 0))%nat.
Proof.
  rewrite terminals_app. f_equal. unfold terminals. rewrite filter_cons.
  simpl. by destruct (isTerminal e).
Qed.

(** Firing once and closing, from the open state. *)
Lemma singleSubscription_close (w : World) (es : EventSource) (n : string) (d : JSValue) :
  sources w = [es] → es_closed es = false → singleSubscription w →
  singleSubscription (closeSubscription 0 (emitEffect (Fire n d) w)).
Proof.
  intros Hs Ho. unfold singleSubscription. rewrite Hs, Ho. simpl. rewrite Hs. simpl.
  intros (Hnd & Ht & _). split; [done|].
  rewrite !terminals_snoc, Ht. simpl. destruct (bool_decide _); lia.
Qed.

Lemma singleSubscription_runHandler (h : Host) (hd : Handler) (ev : Event)
    (w : World) (es : EventSource) :
  sources w = [es] → es_closed es = false → singleSubscription w →
  singleSubscription (exec (runHandler h hd ev) w).
Proof.
  intros Hs Ho Hw.
  assert (Hrt : realtime w = Some (mkRealtime (Some 0%nat))).
  { unfold singleSubscription in Hw. rewrite Hs, Ho in Hw. tauto. }
  destruct hd; simpl.
  - apply (sameSubscription_keeps w); [|done].
    apply stable_handlePageAvailableEvent; [|done].
    apply sameSubscription_emit.
  - destruct (handleFinishedEvent_outcome w 0 Hrt) as (w1 & Hsame & [-> | ->]).
    + by apply (sameSubscription_keeps w).
    + destruct Hsame as (Hs1 & Hr1 & Ht1).
      apply (singleSubscription_close w1 es); [congruence | done |].
      apply (sameSubscription_keeps w); done.
  - destruct (handleErrorEvent_outcome h ev w 0 Hrt) as [-> | [d ->]]; [done|].
    by apply (singleSubscription_close w es).
Qed.

Lemma singleSubscription_deliver (h : Host) (id : nat) (ev : Event) (w : World) :
  singleSubscription w → singleSubscription (deliver h id ev w).
Proof.
  intros Hw. unfold deliver.
  destruct (sources w !! id) as [es|] eqn:Hl; [|done].
  destruct (es_closed es) eqn:Ho; [done|].
  assert (Hs : sources w = [es]).
  { unfold singleSubscription in Hw.
    destruct (sources w) as [|es' [|??]]; [done| |done].
    destruct id; simpl in Hl; [congruence | done]. }
  assert (Hnd : NoDup (es_listeners es).*1).
  { unfold singleSubscription in Hw. rewrite Hs in Hw. tauto. }
  destruct (listenersFor_cases (ev_type ev) es Hnd) as [-> | [hd ->]]; [done|].
  simpl. by apply (singleSubscription_runHandler h hd ev w es).
Qed.

Lemma destroy_subscription (w : World) :
  let w' := exec destroy w in
  terminals (trace w') = terminals (trace w) ∧
  realtime w' = None ∧
  sources w' = match realtime w with
               | Some (mkRealtime (Some id)) => alter closeSource id (sources w)
               | _ => sources w
               end.
Proof.
  unfold exec. rewrite destroy_eq.
  destruct (realtime w) as [[[id|]]|]; simpl; [|done|done].
  rewrite terminals_snoc. simpl. auto with lia.
Qed.

Lemma singleSubscription_destroy (w : World) :
  singleSubscription w → singleSubscription (exec destroy w).
Proof.
  intros Hw. destruct (destroy_subscription w) as (Ht & Hr & Hs).
  unfold singleSubscription in *. rewrite Hs, Ht. clear Hs Ht Hr.
  destruct (sources w) as [|es [|??]]; [by destruct (realtime w) as [[[?|]]|] | |done].
  destruct Hw as [Hnd Hw]. destruct (es_closed es) eqn:Ho.
  - destruct (realtime w) as [[[[|id]|]]|]; simpl; rewrite ?Ho; done.
  - destruct Hw as [Ht ->]. simpl. split; [done | lia].
Qed.

Lemma singleSubscription_step (h : Host) (op : Op) (w : World) :
  singleSubscription w → singleSubscription (step h op w).
Proof.
  intros Hw. destruct op; simpl.
  - apply (sameSubscription_keeps w); [|done].
    destruct (handleReadyMessage_frame w) as (Hs & Hr & _ & Ht). done.
  - by apply singleSubscription_deliver.
  - by apply singleSubscription_destroy.
Qed.

Lemma singleSubscription_run (h : Host) (ops : list Op) (w : World) :
  singleSubscription w → singleSubscription (run h ops w).
Proof.
  revert w. induction ops as [|op ops IH]; intros w Hw; simpl; [done|].
  apply IH. by apply singleSubscription_step.
Qed.

Lemma singleSubscription_init (h : Host) (c : Config) (cfg : PluginConfig) :
  singleSubscription (exec (init h cfg) (create c)).
Proof.
  destruct (init_create_cases h c cfg) as [-> | (u & _ & ->)]; [done|].
  split; [|done]. unfold initListeners. simpl.
  destruct (support_svg h); apply (bool_decide_unpack _); by vm_compute.
Qed.

Lemma singleSubscription_terminals (w : World) :
  singleSubscription w → (terminals (trace w) ≤ 1)%nat.
Proof.
  unfold singleSubscription. destruct (sources w) as [|es [|??]]; [lia| |done].
  intros [_ Hw]. destruct (es_closed es); lia.
Qed.

(** C3: in every plugin lifetime (one [init], then any sequence of ready
    messages, delivered stream events and [destroy] calls) the host API is
    fired at most one terminal signal, [realtimeerror] or
    [realtimecomplete]; and once one was fired the subscription is closed,
    so that delivering further events changes nothing. *)
Theorem C3_one_terminal_signal (h : Host) (c : Config) (cfg : PluginConfig) (ops : list Op) :
  (terminals (trace (lifetime h c cfg ops)) ≤ 1)%nat ∧
  (terminals (trace (lifetime h c cfg ops)) = 1%nat →
   ∀ id ev, deliver h id ev (lifetime h c cfg ops) = lifetime h c cfg ops).
Proof.
  assert (Hw : singleSubscription (lifetime h c cfg ops)).
  { apply singleSubscription_run, singleSubscription_init. }
  split; [by apply singleSubscription_terminals|].
  intros Ht id ev. unfold deliver.
  destruct (sources _ !! id) as [es|] eqn:Hl; [|done].
  destruct (es_closed es) eqn:Ho; [done|]. exfalso.
  unfold singleSubscription in Hw.
  destruct (sources _) as [|es' [|??]]; [done| |done].
  destruct id; simpl in Hl; [|done].
  injection Hl as ->. rewrite Ho in Hw. lia.
Qed.

(** ** The error handler at the payload [null] *)

(** C6: on the open subscription of a browser, a [failed.svg] event whose
    payload is the JSON text [null] decodes to [null]; reading its [error]
    field throws a TypeError out of the handler, so that no [realtimeerror]
    is fired and the subscription stays open, where the claim has
    ['unspecified error'] reported and the subscription closed. *)
Theorem C6_null_payload_not_reported :
  parseJSON browser (Some "null") = Some JNull ∧
  handleErrorEvent browser (mkEvent "failed.svg" (Some "null"))
                   (opened browser tenPages "https://view.example/stream")
  = (Throw TypeError, opened browser tenPages "https://view.example/stream") ∧
  deliver browser 0 (mkEvent "failed.svg" (Some "null"))
          (opened browser tenPages "https://view.example/stream")
  = opened browser tenPages "https://view.example/stream" ∧
  terminals (trace (lifetime browser tenPages streamConfig
                      [OpDeliver 0 (mkEvent "failed.svg" (Some "null"))])) = 0%nat ∧
  es_closed <$> sources (lifetime browser tenPages streamConfig
                           [OpDeliver 0 (mkEvent "failed.svg" (Some "null"))])
  = [false].
Proof. by vm_compute. Qed.

(** ** The examples of the specification *)

Example failed_timeout :
  trace (lifetime browser tenPages streamConfig
           [OpDeliver 0 (mkEvent "failed.svg" (Some timeoutPayload))])
  = [Connect 0 "https://view.example/stream";
     Fire "realtimeerror" (JObj [("error", JStr "timeout")]);
     Close 0].
Proof. by vm_compute. Qed.

Example error_boom :
  trace (lifetime browser tenPages streamConfig
           [OpDeliver 0 (mkEvent "error" (Some "boom"))])
  = [Connect 0 "https://view.example/stream";
     Fire "realtimeerror" (JObj [("error", JStr "boom")]);
     Close 0].
Proof. by vm_compute. Qed.

Example error_without_data :
  trace (lifetime browser tenPages streamConfig [OpDeliver 0 (mkEvent "error" None)])
  = [Connect 0 "https://view.example/stream";
     Fire "realtimeerror" (JObj [("error", JStr "unspecified error")]);
     Close 0].
Proof. by vm_compute. Qed.

Example pages_then_finished :
  trace (lifetime browser tenPages streamConfig
           [OpDeliver 0 (mkEvent "pageavailable.svg" (Some pagesPayload));
            OpReady;
            OpDeliver 0 (mkEvent "finished.svg" None);
            OpDeliver 0 (mkEvent "failed.svg" (Some "late"))])
  = [Connect 0 "https://view.example/stream";
     Broadcast "pageavailable" (JObj [("page", JNum 3)]);
     Broadcast "pageavailable" (JObj [("page", JNum 1)]);
     Broadcast "pageavailable" (JObj [("page", JNum 2)]);
     Broadcast "pageavailable" (JObj [("upto", JNum 10)]);
     Fire "realtimecomplete" JUndefined;
     Close 0].
Proof. by vm_compute. Qed.

(** Both signals count as terminal, and a lifetime can reach the bound of
    one. *)
Example terminals_counts_both :
  terminals [Fire "realtimeerror" (JObj [("error", JStr "boom")]);
             Broadcast "pageavailable" (JObj [("page", JNum 1)]);
             Fire "realtimecomplete" JUndefined; Close 0] = 2%nat.
Proof. by vm_compute. Qed.

Example finished_then_error :
  terminals (trace (lifetime browser tenPages streamConfig
                      [OpDeliver 0 (mkEvent "finished.svg" None);
                       OpDeliver 0 (mkEvent "error" (Some "boom"))])) = 1%nat.
Proof. by vm_compute. Qed.

(** ** Instances of the theorems *)

Lemma C1_two_pages_queued :
  ready (create tenPages) = false ∧
  trace (exec (emitAll (pageMessages [JNum 3; JNum 1])) (create tenPages)) = [] ∧
  trace (exec handleReadyMessage
           (exec (emitAll (pageMessages [JNum 3; JNum 1])) (create tenPages)))
  = [Broadcast "pageavailable" (JObj [("page", JNum 3)]);
     Broadcast "pageavailable" (JObj [("page", JNum 1)])].
Proof.
  split; [reflexivity|].
  destruct (C1_queued_until_ready (create tenPages)
              (pageMessages [JNum 3; JNum 1]) eq_refl) as (H1 & H2 & _).
  split; [exact H1|]. rewrite H2. reflexivity.
Defined.

Lemma C2_finished_before_ready :
  active (opened browser tenPages "https://view.example/stream") 0 ∧
  trace (exec handleFinishedEvent (opened browser tenPages "https://view.example/stream"))
  = [Connect 0 "https://view.example/stream";
     Fire "realtimecomplete" JUndefined; Close 0] ∧
  messageQueue (exec handleFinishedEvent
                  (opened browser tenPages "https://view.example/stream"))
  = Some [mkMessage "pageavailable" (JObj [("upto", JNum 10)])].
Proof.
  assert (Ha : active (opened browser tenPages "https://view.example/stream") 0).
  { repeat split; try reflexivity; eexists; [split|]; reflexivity. }
  split; [exact Ha|].
  destruct (C2_finished_then_closed browser _ 0 Ha) as (H1 & _ & H3 & _).
  unfold exec. rewrite H1. exact (H3 eq_refl).
Defined.


Lemma C7_destroy_without_subscription :
  configured noStream = None ∧
  destroy (exec (init browser noStream) (create tenPages))
  = (Normal tt, releaseReferences (create tenPages)) ∧
  Nat.iter 3 (exec destroy) (exec (init browser noStream) (create tenPages))
  = releaseReferences (create tenPages).
Proof.
  split; [reflexivity|].
  destruct (C7_teardown_idempotent browser tenPages noStream (create tenPages)
              (mkRealtime None) eq_refl) as (_ & _ & _ & _ & _ & H1 & H2).
  split; [exact H1 | exact (H2 2%nat)].
Defined.

Lemma C8_old_browser_throws :
  window_EventSource oldBrowser = false ∧
  init oldBrowser streamConfig (create tenPages)
  = (Throw (PluginError "Realtime plugin requires EventSource support"),
     create tenPages).
Proof.
  split; [reflexivity|].
  exact (proj1 (proj2 (C8_requires_EventSource oldBrowser
                         "https://view.example/stream" (create tenPages) eq_refl))
               streamConfig eq_refl).
Defined.

Lemma C9_flag_stays_false :
  configured streamConfig = Some "https://view.example/stream" ∧
  window_EventSource browser = true ∧
  urlResolves browser "https://view.example/stream" = true ∧
  conversionIsComplete
    (config (lifetime browser tenPages streamConfig
               [OpDeliver 0 (mkEvent "finished.svg" None); OpReady; OpDestroy]))
  = JBool false.
Proof.
  split; [reflexivity|]. split; [reflexivity|]. split; [reflexivity|].
  exact (proj1 (proj2 (C9_conversion_incomplete browser tenPages streamConfig
                         "https://view.example/stream" eq_refl eq_refl eq_refl)) _).
Defined.

Lemma C10_queued_pages_drained :
  gateInv threePagesQueued ∧
  pending threePagesQueued = pageMessages [JNum 3; JNum 1; JNum 2] ∧
  ready (exec handleReadyMessage threePagesQueued) = true ∧
  messageQueue (exec handleReadyMessage threePagesQueued) = Some [] ∧
  gateInv (exec (runHandler browser handleFinishedEvent_h (mkEvent "finished.svg" None))
                threePagesQueued) ∧
  gateInv (deliver browser 0 (mkEvent "pageavailable.svg" (Some pagesPayload))
                   threePagesQueued) ∧
  messageQueue (exec (broadcastMessageWhenReady "pageavailable" (JObj [("page", JNum 4)]))
                     (exec handleReadyMessage threePagesQueued))
  = Some [].
Proof.
  assert (Hi : gateInv threePagesQueued).
  { exists (pageMessages [JNum 3; JNum 1; JNum 2]).
    split; [reflexivity | discriminate]. }
  destruct (C10_gate_invariant browser threePagesQueued Hi)
    as (_ & _ & Hinv & Hready & Hempty & Hhandler & Hdeliver & _).
  split; [exact Hi|]. split; [reflexivity|].
  split; [exact Hready|]. split; [exact Hempty|].
  split; [exact (Hhandler handleFinishedEvent_h (mkEvent "finished.svg" None))|].
  split; [exact (Hdeliver 0%nat (mkEvent "pageavailable.svg" (Some pagesPayload)))|].
  exact (proj1 (proj2 (C10_gate_invariant browser
                         (exec handleReadyMessage threePagesQueued) Hinv))
               Hready "pageavailable" (JObj [("page", JNum 4)])).
Defined.

(** * Further properties of the code *)

(** ** The gate under interleaved emits and ready messages *)

Lemma handleReadyMessage_trace (w : World) :
  trace (exec handleReadyMessage w) = trace w ++ (toBroadcast <$> pending w).
Proof.
  unfold exec, pending. rewrite handleReadyMessage_eq.
  destruct (messageQueue w) as [q|] eqn:Hq.
  - by rewrite (broadcastQueuedMessages_drains q).
  - rewrite broadcastQueuedMessages_released by done. simpl. by rewrite app_nil_r.
Qed.

Lemma gateInv_gateStep (op : GateOp) (w : World) : gateInv w → gateInv (gateStep op w).
Proof.
  destruct op as [m|]; simpl; [apply gateInv_emit | apply gateInv_ready].
Qed.

Lemma gateInv_gateRun (ops : list GateOp) (w : World) : gateInv w → gateInv (gateRun ops w).
Proof.
  revert w. induction ops as [|op ops IH]; intros w Hw; simpl; [done|].
  by apply IH, gateInv_gateStep.
Qed.

(** One step keeps "broadcast so far, then waiting" equal to "broadcast
    before, then waiting before, then the message of the step". *)
Lemma gateStep_conserves (op : GateOp) (w : World) :
  gateInv w →
  trace (gateStep op w) ++ (toBroadcast <$> pending (gateStep op w))
  = trace w ++ (toBroadcast <$> (pending w ++ emitted [op])).
Proof.
  intros (q & Hq & Hqr). unfold pending at 2. rewrite Hq. simpl.
  destruct op as [[n d]|]; simpl.
  - unfold exec. destruct (ready w) eqn:Hr.
    + rewrite emit_ready by done. unfold pending. simpl. rewrite Hq.
      rewrite (Hqr eq_refl). simpl. by rewrite app_nil_r.
    + rewrite (emit_queued _ _ _ q) by done. unfold pending. simpl. done.
  - rewrite handleReadyMessage_trace.
    destruct (handleReadyMessage_drains w) as [_ ->].
    unfold pending. rewrite Hq. simpl. by rewrite !app_nil_r.
Qed.

Lemma gateRun_conserves (ops : list GateOp) (w : World) :
  gateInv w →
  trace (gateRun ops w) ++ (toBroadcast <$> pending (gateRun ops w))
  = trace w ++ (toBroadcast <$> (pending w ++ emitted ops)).
Proof.
  revert w. induction ops as [|op ops IH]; intros w Hw; simpl.
  - by rewrite app_nil_r.
  - rewrite IH by (by apply gateInv_gateStep).
    rewrite fmap_app, app_assoc, gateStep_conserves by done.
    rewrite <- app_assoc, <- fmap_app, <- app_assoc.
    by destruct op.
Qed.

Lemma ready_gateStep (op : GateOp) (w : World) :
  ready w = true ∨ op = GReady → ready (gateStep op w) = true.
Proof.
  destruct op as [[n d]|]; simpl.
  - intros [Hr | [=]]. unfold exec. by rewrite emit_ready.
  - intros _. apply handleReadyMessage_drains.
Qed.

Lemma ready_gateRun (ops : list GateOp) (w : World) :
  ready w = true ∨ GReady ∈ ops → ready (gateRun ops w) = true.
Proof.
  revert w. induction ops as [|op ops IH]; intros w H; simpl.
  - destruct H as [H | H]; [done | by apply elem_of_nil in H].
  - apply IH. destruct H as [H | H].
    + left. apply ready_gateStep. by left.
    + apply elem_of_cons in H as [<- | H]; [|by right].
      left. apply ready_gateStep. by right.
Qed.

(** X1: under any interleaving of emits and ready messages nothing is
    lost, repeated or reordered: the broadcasts made so far followed by the
    messages still waiting are the earlier ones followed by all emitted
    messages, in emission order; and if a ready message was among the
    operations nothing is left waiting, so all of them were broadcast in
    that order. *)
Theorem X1_gate_is_fifo (ops : list GateOp) (w : World) :
  gateInv w →
  trace (gateRun ops w) ++ (toBroadcast <$> pending (gateRun ops w))
  = trace w ++ (toBroadcast <$> (pending w ++ emitted ops)) ∧
  (GReady ∈ ops →
   pending (gateRun ops w) = [] ∧
   trace (gateRun ops w) = trace w ++ (toBroadcast <$> (pending w ++ emitted ops))).
Proof.
  intros Hw. pose proof (gateRun_conserves ops w Hw) as Hc.
  split; [done|]. intros Hin.
  assert (Hp : pending (gateRun ops w) = []).
  { destruct (gateInv_gateRun ops w Hw) as (q & Hq & Hqr).
    unfold pending. rewrite Hq. simpl. apply Hqr, ready_gateRun. by right. }
  split; [done|]. rewrite Hp in Hc. simpl in Hc. by rewrite app_nil_r in Hc.
Qed.

Lemma X1_emit_ready_emit :
  gateInv (create tenPages) ∧
  trace (gateRun [GEmit (mkMessage "pageavailable" (JObj [("page", JNum 1)]));
                  GReady;
                  GEmit (mkMessage "pageavailable" (JObj [("page", JNum 2)]))]
                 (create tenPages))
  = [Broadcast "pageavailable" (JObj [("page", JNum 1)]);
     Broadcast "pageavailable" (JObj [("page", JNum 2)])].
Proof.
  assert (Hi : gateInv (create tenPages)) by (exists []; split; [reflexivity | auto]).
  split; [exact Hi|].
  refine (proj2 (proj2 (X1_gate_is_fifo _ (create tenPages) Hi) _)).
  apply elem_of_cons. right. apply elem_of_cons. by left.
Defined.

(** ** What a page event can and cannot do *)

Lemma onlyPagesEmitted_refl (w : World) : onlyPagesEmitted w w.
Proof.
  unfold onlyPagesEmitted. split_and!; try done.
  exists []. split; [by rewrite app_nil_r | constructor].
Qed.

Lemma onlyPagesEmitted_emit (w0 : World) (d : JSValue) :
  stable (onlyPagesEmitted w0) (broadcastMessageWhenReady "pageavailable" d).
Proof.
  intros w (Hs & Hc & Hu & Hvc & Hapi & Hrt & Hr & Hq & bs & Ht & Hbs).
  unfold exec. destruct (ready w) eqn:Hrw.
  - rewrite emit_ready by done. unfold onlyPagesEmitted. split_and!; try done; try (simpl; congruence);
      try (intros HH; simpl; rewrite ?Hqw; by apply Hq).
    exists (bs ++ [Broadcast "pageavailable" d]). simpl. rewrite Ht, app_assoc.
    split; [done|]. apply Forall_app. split; [done|].
    constructor; [by exists d | constructor].
  - destruct (messageQueue w) as [q|] eqn:Hqw.
    + rewrite (emit_queued _ _ _ q) by done.
      unfold onlyPagesEmitted. split_and!; try done; try (simpl; congruence);
      try (intros HH; simpl; rewrite ?Hqw; by apply Hq). by exists bs.
    + rewrite emit_released by done.
      unfold onlyPagesEmitted. split_and!; try done; try (simpl; congruence);
      try (intros HH; simpl; rewrite ?Hqw; by apply Hq). by exists bs.
Qed.

Lemma onlyPagesEmitted_handler (h : Host) (ev : Event) (w : World) :
  onlyPagesEmitted w (exec (handlePageAvailableEvent h ev) w).
Proof.
  apply (stable_bind (onlyPagesEmitted w)); [apply stable_util_parseJSON | |].
  - intros decoded. apply stable_bind; [apply stable_liftC|]. intros pages.
    apply stable_bind; [apply stable_liftC|]. intros len.
    apply stable_forLoop. intros j.
    apply stable_bind; [apply stable_liftC|]. intros page.
    apply onlyPagesEmitted_emit.
  - apply onlyPagesEmitted_refl.
Qed.

Lemma emittedPages_nil (w : World) : emittedPages w [] = w.
Proof.
  unfold emittedPages. destruct (ready w).
  - apply emitEffects_nil.
  - apply world_eq; simpl; try done.
    destruct (messageQueue w); simpl; [by rewrite app_nil_r | done].
Qed.

Lemma emittedPages_emit (w0 : World) (page : JSValue) :
  stable (fun w => ∃ ms, Forall isPageMessage ms ∧ w = emittedPages w0 ms)
         (broadcastMessageWhenReady "pageavailable" (JObj [("page", page)])).
Proof.
  intros w (ms & Hms & ->).
  set (m := mkMessage "pageavailable" (JObj [("page", page)])).
  assert (Hm : Forall isPageMessage (ms ++ [m])).
  { apply Forall_app. split; [done|]. constructor; [|constructor].
    split; [done | by exists page]. }
  unfold exec, emittedPages. destruct (ready w0) eqn:Hr.
  - rewrite emit_ready by done. exists (ms ++ [m]). split; [done|].
    by rewrite emitEffect_emitEffects, emitEffects_app, fmap_app.
  - destruct (messageQueue w0) as [q|] eqn:Hq; simpl.
    + rewrite (emit_queued _ _ _ (q ++ ms)) by done.
      exists (ms ++ [m]). split; [done|].
      apply world_eq; simpl; try done. by rewrite app_assoc.
    + rewrite emit_released by done. by exists ms.
Qed.

Lemma emittedPages_handler (h : Host) (ev : Event) (w : World) :
  ∃ ms, Forall isPageMessage ms ∧
        exec (handlePageAvailableEvent h ev) w = emittedPages w ms.
Proof.
  apply (stable_bind (fun w' => ∃ ms, Forall isPageMessage ms ∧ w' = emittedPages w ms));
    [apply stable_util_parseJSON | |].
  - intros decoded. apply stable_bind; [apply stable_liftC|]. intros pages.
    apply stable_bind; [apply stable_liftC|]. intros len.
    apply stable_forLoop. intros j.
    apply stable_bind; [apply stable_liftC|]. intros page.
    apply emittedPages_emit.
  - exists []. split; [constructor | by rewrite emittedPages_nil].
Qed.

(** X2: whatever the state of the plugin and whatever value its payload
    decodes to, all a page event does is pass [pageavailable] notifications
    for single pages through the gate: the resulting world is the one before
    with those notifications broadcast in order (viewer ready) or appended
    in order to the queue (viewer not ready; nothing at all if the queue
    was released).  So it fires nothing on the host API, closes nothing,
    removes nothing from the queue, and leaves the subscription, the viewer
    configuration and the ready flag as they were. *)
Theorem X2_page_event_only_emits (h : Host) (ev : Event) (w : World) :
  let w' := exec (handlePageAvailableEvent h ev) w in
  sources w' = sources w ∧ config w' = config w ∧ realtime w' = realtime w ∧
  ready w' = ready w ∧ terminals (trace w') = terminals (trace w) ∧
  (∃ bs, trace w' = trace w ++ bs ∧ Forall isPageBroadcast bs) ∧
  ∃ ms, Forall isPageMessage ms ∧
        w' = emittedPages w ms ∧
        (ready w = true →
         trace w' = trace w ++ (toBroadcast <$> ms) ∧
         messageQueue w' = messageQueue w) ∧
        (ready w = false →
         trace w' = trace w ∧
         messageQueue w' = (fun q => q ++ ms) <$> messageQueue w).
Proof.
  intros w'.
  destruct (onlyPagesEmitted_handler h ev w)
    as (Hs & Hc & _ & _ & _ & Hrt & Hr & _ & bs & Ht & Hbs).
  split_and!; try done; [|by exists bs|].
  - fold w' in Ht. rewrite Ht, terminals_app.
    assert (Hz : terminals bs = 0%nat); [|lia].
    clear Ht. induction Hbs as [|e bs [d ->] _ IH]; [done|]. exact IH.
  - destruct (emittedPages_handler h ev w) as (ms & Hms & Hw).
    exists ms. fold w' in Hw. split; [done|]. split; [done|].
    rewrite Hw. unfold emittedPages. split; intros Hrw; by rewrite Hrw.
Qed.

(** Reading an element never throws once reading the length did not. *)
Lemma getIndex_after_length (pages len : JSValue) (i : nat) :
  getProp pages "length" = Normal len → ∃ v, getIndex pages i = Normal v.
Proof. destruct pages; simpl; intros; try done; eauto. Qed.

(** The loop either runs through or stops at its first emit, before any
    effect. *)
Lemma forLoop_pages_whole (pages len : JSValue) (count i : nat) (w : World) :
  getProp pages "length" = Normal len →
  let body := fun i => page ← liftC (getIndex pages i);
                       broadcastMessageWhenReady "pageavailable" (JObj [("page", page)]) in
  completion (forLoop count i body) w = Normal tt ∨
  forLoop count i body w = (Throw TypeError, w).
Proof.
  intros Hlen body. destruct (ready w) eqn:Hr; [| destruct (messageQueue w) as [q|] eqn:Hq].
  - left. revert i w Hr. induction count as [|n IH]; intros i w Hr; [done|].
    simpl. destruct (getIndex_after_length pages len i Hlen) as [v Hv].
    unfold completion, bind at 1, body at 1, bind at 1, liftC at 1. rewrite Hv.
    rewrite emit_ready by done. by apply IH.
  - left. revert i w q Hr Hq. induction count as [|n IH]; intros i w q Hr Hq; [done|].
    simpl. destruct (getIndex_after_length pages len i Hlen) as [v Hv].
    unfold completion, bind at 1, body at 1, bind at 1, liftC at 1. rewrite Hv.
    rewrite (emit_queued _ _ _ q) by done. by eapply IH.
  - destruct count as [|n]; [by left|]. right.
    simpl. destruct (getIndex_after_length pages len i Hlen) as [v Hv].
    unfold bind at 1, body at 1, bind at 1, liftC at 1. rewrite Hv.
    by rewrite emit_released.
Qed.

Lemma handlePageAvailableEvent_whole (h : Host) (ev : Event) (w : World) :
  (∃ e, handlePageAvailableEvent h ev w = (Throw e, w)) ∨
  completion (handlePageAvailableEvent h ev) w = Normal tt.
Proof.
  unfold completion.
  cbv [handlePageAvailableEvent util_parseJSON updateAvailablePages bind gets ret
       throw liftC].
  destruct (util w); [|eauto].
  destruct (parseJSON h (ev_data ev)) as [decoded|]; [|eauto].
  destruct (getProp decoded "pages") as [pages|e]; [|eauto].
  destruct (getProp pages "length") as [len|e] eqn:Hlen; [|eauto].
  destruct (forLoop_pages_whole pages len (iterations h len) 0 w Hlen) as [Hn | Ht].
  - right. exact Hn.
  - left. exists TypeError. exact Ht.
Qed.

(** X3: a page event that fails, fails whole: when the handler throws, the
    world is as before (no notification was broadcast or queued).  It throws
    the decoder's exception for a payload that does not decode (unlike the
    error handler it has no fallback), and a TypeError for a decoded object
    without a [pages] field; an empty [pages] array is no failure and
    emits nothing. *)
Theorem X3_page_event_fails_whole (h : Host) (ev : Event) (w : World) :
  util w = true →
  (∀ e, completion (handlePageAvailableEvent h ev) w = Throw e →
        exec (handlePageAvailableEvent h ev) w = w) ∧
  (parseJSON h (ev_data ev) = None →
   handlePageAvailableEvent h ev w = (Throw DecodeError, w)) ∧
  (∀ fs, parseJSON h (ev_data ev) = Some (JObj fs) → lookupField "pages" fs = None →
         handlePageAvailableEvent h ev w = (Throw TypeError, w)) ∧
  (∀ fs, parseJSON h (ev_data ev) = Some (JObj fs) →
         lookupField "pages" fs = Some (JArr []) →
         handlePageAvailableEvent h ev w = (Normal tt, w)).
Proof.
  intros Hu. split; [|split; [|split]].
  - intros e He. destruct (handlePageAvailableEvent_whole h ev w) as [[e' Hw] | Hn].
    + unfold exec. by rewrite Hw.
    + congruence.
  - intros Hp.
    cbv [handlePageAvailableEvent util_parseJSON bind gets throw]. by rewrite Hu, Hp.
  - intros fs Hp Hf.
    cbv [handlePageAvailableEvent util_parseJSON bind gets ret liftC].
    rewrite Hu, Hp. simpl. by rewrite Hf.
  - intros fs Hp Hf.
    cbv [handlePageAvailableEvent util_parseJSON bind gets ret liftC].
    rewrite Hu, Hp. simpl. by rewrite Hf.
Qed.

Lemma X3_malformed_page_payload :
  util (opened browser tenPages "https://view.example/stream") = true ∧
  parseJSON browser (Some "{pages") = None ∧
  handlePageAvailableEvent browser (mkEvent "pageavailable.svg" (Some "{pages"))
    (opened browser tenPages "https://view.example/stream")
  = (Throw DecodeError, opened browser tenPages "https://view.example/stream").
Proof.
  assert (Hp : parseJSON browser (Some "{pages") = None) by (vm_compute; reflexivity).
  split; [reflexivity|]. split; [exact Hp|].
  exact (proj1 (proj2 (X3_page_event_fails_whole browser
                         (mkEvent "pageavailable.svg" (Some "{pages"))
                         (opened browser tenPages "https://view.example/stream")
                         eq_refl)) Hp).
Defined.

(** ** The subscription throughout a lifetime *)

Lemma NoDup_initListeners (h : Host) : NoDup (initListeners h).*1.
Proof.
  unfold initListeners. simpl.
  destruct (support_svg h); apply (bool_decide_unpack _); by vm_compute.
Qed.

Lemma handleFinishedEvent_active (w : World) (id : nat) :
  active w id →
  handleFinishedEvent w =
  (Normal tt,
   closeSubscription id
     (emitEffect (Fire "realtimecomplete" JUndefined)
        (exec (broadcastMessageWhenReady "pageavailable"
                 (JObj [("upto", numPages (config w))])) w))).
Proof.
  intros (Hrt & _ & _ & Hvc & Hapi & [q Hq]).
  set (upto := JObj [("upto", numPages (config w))]).
  set (w1 := exec (broadcastMessageWhenReady "pageavailable" upto) w).
  assert (Hemit : broadcastMessageWhenReady "pageavailable" upto w = (Normal tt, w1)
                  ∧ viewerAPI w1 = true ∧ realtime w1 = realtime w).
  { unfold w1, exec. destruct (ready w) eqn:Hr.
    - by rewrite emit_ready.
    - by rewrite (emit_queued _ _ _ q). }
  destruct Hemit as (Hemit & Hapi1 & Hrt1).
  cbv [handleFinishedEvent bind gets viewerAPI_fire modify throw].
  rewrite Hvc. fold upto. rewrite Hemit, Hapi1.
  rewrite realtime_destroy_open with (id := id); [done|].
  simpl. by rewrite Hrt1.
Qed.

Lemma active_handleReadyMessage (w : World) (id : nat) :
  active w id → active (exec handleReadyMessage w) id.
Proof.
  intros (Hrt & Hs & Hu & Hvc & Hapi & [q Hq]). unfold exec.
  rewrite handleReadyMessage_eq, (broadcastQueuedMessages_drains q) by done.
  unfold active. simpl. split_and!; done.
Qed.

Lemma active_onlyPagesEmitted (w w' : World) (id : nat) :
  onlyPagesEmitted w w' → active w id → active w' id.
Proof.
  intros (Hs & _ & Hu & Hvc & Hapi & Hrt & _ & Hq & _) (? & ? & ? & ? & ? & ?).
  unfold active. rewrite Hs, Hu, Hvc, Hapi, Hrt. split_and!; auto.
Qed.

Lemma lifeInv_closed (h : Host) (w : World) (es : EventSource) :
  sources w = [es] → es_listeners es = initListeners h → es_closed es = true →
  lifeInv h w.
Proof. intros Hs Hl Hc. unfold lifeInv. rewrite Hs, Hc. by split. Qed.

Lemma lifeInv_runHandler (h : Host) (hd : Handler) (ev : Event) (w : World)
    (es : EventSource) :
  sources w = [es] → es_listeners es = initListeners h → active w 0 →
  lifeInv h (exec (runHandler h hd ev) w).
Proof.
  intros Hs Hl Ha.
  assert (Hrt : realtime w = Some (mkRealtime (Some 0%nat))) by apply Ha.
  destruct hd; simpl.
  - pose proof (onlyPagesEmitted_handler h ev w) as Ho.
    unfold lifeInv. rewrite (proj1 Ho), Hs. split; [done|]. intros _.
    by apply (active_onlyPagesEmitted w).
  - unfold exec. rewrite (handleFinishedEvent_active w 0 Ha). simpl.
    apply (lifeInv_closed h _ (closeSource es)); [|done|done].
    simpl. destruct (emit_frame "pageavailable"
                       (JObj [("upto", numPages (config w))]) w) as (-> & _).
    by rewrite Hs.
  - destruct (handleErrorEvent_outcome h ev w 0 Hrt) as [-> | [d ->]].
    + unfold lifeInv. rewrite Hs. by split.
    + apply (lifeInv_closed h _ (closeSource es)); [|done|done].
      simpl. by rewrite Hs.
Qed.

Lemma lifeInv_step (h : Host) (op : Op) (w : World) :
  lifeInv h w → lifeInv h (step h op w).
Proof.
  intros Hw. destruct op as [|id ev|]; simpl.
  - unfold lifeInv in *. unfold onmessage.
    destruct (handleReadyMessage_frame w) as (-> & _).
    destruct (sources w) as [|es [|??]]; [done| |done].
    destruct Hw as [Hl Ha]. split; [done|]. intros Ho.
    by apply active_handleReadyMessage, Ha.
  - unfold deliver. destruct (sources w !! id) as [es|] eqn:Hlk; [|done].
    destruct (es_closed es) eqn:Ho; [done|].
    assert (Hs : sources w = [es]).
    { unfold lifeInv in Hw. destruct (sources w) as [|es' [|??]]; [done| |done].
      destruct id; simpl in Hlk; [congruence | done]. }
    unfold lifeInv in Hw. rewrite Hs, Ho in Hw. destruct Hw as [Hl Ha].
    assert (Hnd : NoDup (es_listeners es).*1)
      by (rewrite Hl; apply NoDup_initListeners).
    destruct (listenersFor_cases (ev_type ev) es Hnd) as [-> | [hd ->]]; simpl.
    + unfold lifeInv. rewrite Hs, Ho. by split.
    + by apply (lifeInv_runHandler h hd ev w es); [| |apply Ha].
  - destruct (destroy_subscription w) as (_ & Hr & Hs).
    unfold lifeInv in *. rewrite Hs. clear Hs.
    destruct (sources w) as [|es [|??]]; [by destruct (realtime w) as [[[?|]]|] | |done].
    destruct Hw as [Hl Ha]. destruct (es_closed es) eqn:Ho.
    + destruct (realtime w) as [[[[|id]|]]|]; simpl; rewrite ?Ho; by split.
    + destruct (Ha eq_refl) as (-> & _). simpl. by split.
Qed.

Lemma lifeInv_lifetime (h : Host) (c : Config) (cfg : PluginConfig) (ops : list Op) :
  lifeInv h (lifetime h c cfg ops).
Proof.
  unfold lifetime.
  assert (Hi : lifeInv h (exec (init h cfg) (create c))).
  { destruct (init_create_cases h c cfg) as [-> | (u & _ & ->)]; [done|].
    split; [done|]. intros _. unfold active. simpl. split_and!; try done; eauto. }
  revert Hi. generalize (exec (init h cfg) (create c)).
  induction ops as [|op ops IH]; intros w Hw; simpl; [done|].
  by apply IH, lifeInv_step.
Qed.

(** X4: throughout a plugin lifetime there is at most one event source;
    its listeners stay exactly the four that [init] registered (the generic
    [error] and the three event types of the one supported mode); and as
    long as it is open the plugin is active: it holds the subscription and
    its references and its queue are all in place. *)
Theorem X4_subscription_invariant (h : Host) (c : Config) (cfg : PluginConfig)
    (ops : list Op) :
  (length (sources (lifetime h c cfg ops)) ≤ 1)%nat ∧
  ∀ es, sources (lifetime h c cfg ops) !! 0%nat = Some es →
        es_listeners es = initListeners h ∧
        (es_closed es = false → active (lifetime h c cfg ops) 0).
Proof.
  pose proof (lifeInv_lifetime h c cfg ops) as Hw. unfold lifeInv in Hw.
  destruct (sources (lifetime h c cfg ops)) as [|es [|??]]; [|..|done].
  - split; [simpl; lia | done].
  - split; [simpl; lia|]. by intros es' [= <-].
Qed.

Lemma deliver_unregistered (h : Host) (id : nat) (ev : Event) (w : World) :
  lifeInv h w → ev_type ev ∉ (initListeners h).*1 → deliver h id ev w = w.
Proof.
  intros Hw Hn. unfold deliver. destruct (sources w !! id) as [es|] eqn:Hlk; [|done].
  destruct (es_closed es); [done|].
  assert (Hl : es_listeners es = initListeners h).
  { unfold lifeInv in Hw. destruct (sources w) as [|es' [|??]]; [done| |done].
    destruct id; simpl in Hlk; [|done]. injection Hlk as ->. apply Hw. }
  unfold listenersFor. rewrite Hl, listenersFor_none; done.
Qed.

(** X5: only the four registered event types are ever dispatched: in any
    plugin lifetime, an event of any other type (the other mode's
    [pageavailable], [finished] and [failed] among them) changes nothing,
    on whatever event source it is delivered. *)
Theorem X5_other_events_ignored (h : Host) (c : Config) (cfg : PluginConfig)
    (ops : list Op) (id : nat) (ev : Event) :
  ev_type ev ≠ "error" →
  ev_type ev ≠ "pageavailable." +:+ mode h →
  ev_type ev ≠ "finished." +:+ mode h →
  ev_type ev ≠ "failed." +:+ mode h →
  deliver h id ev (lifetime h c cfg ops) = lifetime h c cfg ops.
Proof.
  intros H1 H2 H3 H4. apply deliver_unregistered; [apply lifeInv_lifetime|].
  unfold initListeners, mode in *. destruct (support_svg h); simpl in *;
    rewrite !not_elem_of_cons; split_and!; try done; apply not_elem_of_nil.
Qed.

Lemma X5_png_event_in_svg_mode :
  "finished.png" ≠ "error" ∧
  "finished.png" ≠ "pageavailable." +:+ mode browser ∧
  "finished.png" ≠ "finished." +:+ mode browser ∧
  "finished.png" ≠ "failed." +:+ mode browser ∧
  deliver browser 0 (mkEvent "finished.png" None)
          (lifetime browser tenPages streamConfig [OpReady])
  = lifetime browser tenPages streamConfig [OpReady].
Proof.
  assert (H1 : "finished.png" ≠ "error") by discriminate.
  assert (H2 : "finished.png" ≠ "pageavailable." +:+ mode browser) by discriminate.
  assert (H3 : "finished.png" ≠ "finished." +:+ mode browser) by discriminate.
  assert (H4 : "finished.png" ≠ "failed." +:+ mode browser) by discriminate.
  split; [exact H1|]. split; [exact H2|]. split; [exact H3|]. split; [exact H4|].
  exact (X5_other_events_ignored browser tenPages streamConfig [OpReady] 0
           (mkEvent "finished.png" None) H1 H2 H3 H4).
Defined.

(** ** Terminal events *)

Lemma truthy_jsOr_unspecified (v : JSValue) :
  truthy (jsOr v (JStr "unspecified error")) = true.
Proof. unfold jsOr. by destruct (truthy v) eqn:Hv. Qed.

Lemma reportedError_truthy (h : Host) (ev : Event) (m : JSValue) :
  reportedError h ev = Some m → truthy m = true.
Proof.
  unfold reportedError. destruct (parseJSON h (ev_data ev)) as [v|].
  - destruct (getProp v "error"); intros [= <-]. apply truthy_jsOr_unspecified.
  - intros [= <-]. apply truthy_jsOr_unspecified.
Qed.

Lemma reportedError_None (h : Host) (ev : Event) :
  reportedError h ev = None ↔
  parseJSON h (ev_data ev) = Some JNull ∨ parseJSON h (ev_data ev) = Some JUndefined.
Proof.
  unfold reportedError. destruct (parseJSON h (ev_data ev)) as [v|].
  - destruct v; simpl; split; intros H; try done; auto;
      destruct H as [[=] | [=]].
  - split; [done | by intros [? | ?]].
Qed.

Lemma handleErrorEvent_reported (h : Host) (w : World) (id : nat) (ev : Event) :
  active w id →
  handleErrorEvent h ev w =
  match reportedError h ev with
  | Some m =>
      (Normal tt,
       closeSubscription id
         (emitEffect (Fire "realtimeerror" (JObj [("error", m)])) w))
  | None => (Throw TypeError, w)
  end.
Proof.
  intros Ha. unfold reportedError.
  destruct (parseJSON h (ev_data ev)) as [v|] eqn:Hp.
  - destruct (getProp v "error") as [err|e] eqn:He.
    + by apply (handleErrorEvent_decoded h w id ev v err).
    + apply (handleErrorEvent_null h w ev v); [apply Ha | done |].
      destruct v; simpl in He; try done; auto.
  - by apply handleErrorEvent_raw.
Qed.

(** X6: in the active plugin the error handler does one of two things and
    nothing in between.  Either it fires exactly one [realtimeerror] whose
    message is never falsy (the decoded [error] field, else the raw data
    of a payload that does not decode, else ['unspecified error']) and then
    closes the subscription; or, exactly when the payload decodes to [null]
    (or [undefined]), it throws a TypeError and leaves the world untouched. *)
Theorem X6_error_reported_or_thrown (h : Host) (w : World) (id : nat) (ev : Event) :
  active w id →
  handleErrorEvent h ev w =
  match reportedError h ev with
  | Some m =>
      (Normal tt,
       closeSubscription id
         (emitEffect (Fire "realtimeerror" (JObj [("error", m)])) w))
  | None => (Throw TypeError, w)
  end ∧
  (∀ m, reportedError h ev = Some m → truthy m = true) ∧
  (reportedError h ev = None ↔
   parseJSON h (ev_data ev) = Some JNull ∨ parseJSON h (ev_data ev) = Some JUndefined).
Proof.
  intros Ha. split; [by apply handleErrorEvent_reported|].
  split; [apply reportedError_truthy | apply reportedError_None].
Qed.

Lemma X6_empty_error_field :
  active (opened browser tenPages "https://view.example/stream") 0 ∧
  reportedError browser
    (mkEvent "error" (Some ("{" +:+ quoted "error" +:+ ":" +:+ quoted EmptyString +:+ "}")))
  = Some (JStr "unspecified error") ∧
  trace (exec (handleErrorEvent browser
                 (mkEvent "error"
                    (Some ("{" +:+ quoted "error" +:+ ":" +:+ quoted EmptyString +:+ "}"))))
              (opened browser tenPages "https://view.example/stream"))
  = [Connect 0 "https://view.example/stream";
     Fire "realtimeerror" (JObj [("error", JStr "unspecified error")]);
     Close 0].
Proof.
  assert (Ha : active (opened browser tenPages "https://view.example/stream") 0).
  { repeat split; try reflexivity; eexists; [split|]; reflexivity. }
  split; [exact Ha|]. split; [vm_compute; reflexivity|].
  unfold exec.
  rewrite (proj1 (X6_error_reported_or_thrown browser _ 0
                    (mkEvent "error"
                       (Some ("{" +:+ quoted "error" +:+ ":" +:+ quoted EmptyString +:+ "}")))
                    Ha)).
  vm_compute. reflexivity.
Defined.

Lemma deliver_single (h : Host) (id : nat) (ev : Event) (w : World) (es : EventSource)
    (hd : Handler) :
  sources w !! id = Some es → es_closed es = false →
  listenersFor (ev_type ev) es = [hd] →
  deliver h id ev w = exec (runHandler h hd ev) w.
Proof. intros Hs Ho Hl. unfold deliver. by rewrite Hs, Ho, Hl. Qed.

Lemma routes_mode (h : Host) (es : EventSource) :
  es_listeners es = initListeners h →
  listenersFor "error" es = [handleErrorEvent_h] ∧
  listenersFor ("finished." +:+ mode h) es = [handleFinishedEvent_h] ∧
  listenersFor ("failed." +:+ mode h) es = [handleErrorEvent_h] ∧
  listenersFor ("pageavailable." +:+ mode h) es = [handlePageAvailableEvent_h].
Proof.
  intros Hl. unfold listenersFor, mode. rewrite Hl. unfold initListeners.
  destruct (support_svg h); by vm_compute.
Qed.

(** X7: no terminal event is lost while the subscription is open.  In any
    plugin lifetime, as long as the event source is open, a delivered
    [finished.<mode>] event fires [realtimecomplete] and closes the
    subscription (after emitting [{upto: numPages}] through the gate), and
    a delivered [error] or [failed.<mode>] event with a reportable payload
    fires [realtimeerror] with that message and closes it. *)
Theorem X7_terminal_events_not_lost (h : Host) (c : Config) (cfg : PluginConfig)
    (ops : list Op) (es : EventSource) :
  sources (lifetime h c cfg ops) !! 0%nat = Some es →
  es_closed es = false →
  (∀ d, deliver h 0 (mkEvent ("finished." +:+ mode h) d) (lifetime h c cfg ops)
        = closeSubscription 0
            (emitEffect (Fire "realtimecomplete" JUndefined)
               (exec (broadcastMessageWhenReady "pageavailable"
                        (JObj [("upto", numPages (config (lifetime h c cfg ops)))]))
                     (lifetime h c cfg ops)))) ∧
  (∀ ev m, ev_type ev = "error" ∨ ev_type ev = "failed." +:+ mode h →
           reportedError h ev = Some m →
           deliver h 0 ev (lifetime h c cfg ops)
           = closeSubscription 0
               (emitEffect (Fire "realtimeerror" (JObj [("error", m)]))
                  (lifetime h c cfg ops))).
Proof.
  intros Hs Ho. pose proof (lifeInv_lifetime h c cfg ops) as Hinv.
  set (wl := lifetime h c cfg ops) in *.
  assert (Hl : es_listeners es = initListeners h ∧ active wl 0).
  { unfold lifeInv in Hinv. destruct (sources wl) as [|es' [|??]]; [done| |done].
    injection Hs as ->. destruct Hinv as [Hl Ha]. auto. }
  destruct Hl as [Hl Ha].
  destruct (routes_mode h es Hl) as (Re & Rf & Rx & _).
  split.
  - intros d. rewrite (deliver_single h 0 _ wl es handleFinishedEvent_h) by done.
    simpl. unfold exec at 1. by rewrite (handleFinishedEvent_active wl 0 Ha).
  - intros ev m Hty Hm.
    assert (Hr : listenersFor (ev_type ev) es = [handleErrorEvent_h])
      by (by destruct Hty as [-> | ->]).
    rewrite (deliver_single h 0 ev wl es handleErrorEvent_h) by done.
    simpl. unfold exec. by rewrite (handleErrorEvent_reported h wl 0 ev Ha), Hm.
Qed.

Lemma X7_finished_after_pages :
  sources (lifetime browser tenPages streamConfig
             [OpDeliver 0 (mkEvent "pageavailable.svg" (Some pagesPayload)); OpReady])
    !! 0%nat
  = Some (mkEventSource "https://view.example/stream" (initListeners browser) false) ∧
  terminals
    (trace (deliver browser 0 (mkEvent ("finished." +:+ mode browser) None)
              (lifetime browser tenPages streamConfig
                 [OpDeliver 0 (mkEvent "pageavailable.svg" (Some pagesPayload));
                  OpReady])))
  = 1%nat.
Proof.
  assert (Hs : sources (lifetime browser tenPages streamConfig
                          [OpDeliver 0 (mkEvent "pageavailable.svg" (Some pagesPayload));
                           OpReady]) !! 0%nat
               = Some (mkEventSource "https://view.example/stream"
                         (initListeners browser) false))
    by (vm_compute; reflexivity).
  split; [exact Hs|].
  rewrite (proj1 (X7_terminal_events_not_lost browser tenPages streamConfig _ _
                    Hs eq_refl) None).
  vm_compute. reflexivity.
Defined.

(** ** After [destroy] *)

Lemma run_app (h : Host) (ops1 ops2 : list Op) (w : World) :
  run h (ops1 ++ ops2) w = run h ops2 (run h ops1 w).
Proof. unfold run. apply fold_left_app. Qed.

Lemma destroy_tornDown (w : World) :
  singleSubscription w → tornDown (exec destroy w).
Proof.
  intros Hw. destruct (destroy_subscription w) as (_ & Hr & Hs).
  unfold tornDown. rewrite Hr, Hs. split; [done|]. split.
  { unfold exec. by rewrite destroy_eq. }
  unfold singleSubscription in Hw.
  destruct (sources w) as [|es [|??]]; [by destruct (realtime w) as [[[?|]]|] | |done].
  destruct Hw as [_ Hw]. destruct (es_closed es) eqn:Ho.
  - destruct (realtime w) as [[[[|id]|]]|]; simpl; by repeat constructor.
  - destruct Hw as [_ ->]. simpl. by repeat constructor.
Qed.

Lemma tornDown_step (h : Host) (op : Op) (w : World) :
  tornDown w → tornDown (step h op w) ∧ trace (step h op w) = trace w.
Proof.
  intros (Hr & Hq & Hc). destruct op as [|id ev|]; simpl.
  - unfold onmessage, exec.
    rewrite handleReadyMessage_eq, broadcastQueuedMessages_released by done.
    by split.
  - unfold deliver. destruct (sources w !! id) as [es|] eqn:Hl; [|by split].
    by rewrite (Forall_lookup_1 _ _ _ _ Hc Hl).
  - unfold exec. rewrite destroy_eq, Hr. by split.
Qed.

Lemma tornDown_run (h : Host) (ops : list Op) (w : World) :
  tornDown w → tornDown (run h ops w) ∧ trace (run h ops w) = trace w.
Proof.
  revert w. induction ops as [|op ops IH]; intros w Hw; simpl; [done|].
  destruct (tornDown_step h op w Hw) as [Hw' Ht].
  destruct (IH _ Hw') as [Hw'' Ht']. split; [done | congruence].
Qed.

(** X8: [destroy] silences the plugin for good.  In any lifetime, once the
    host has called [destroy], no later ready message, stream event or
    further [destroy] adds anything to what the host has seen: notifications
    still waiting in the queue are dropped, not flushed, and a later ready
    message throws a TypeError (the queue is gone). *)
Theorem X8_silent_after_destroy (h : Host) (c : Config) (cfg : PluginConfig)
    (ops1 ops2 : list Op) :
  trace (lifetime h c cfg (ops1 ++ OpDestroy :: ops2))
  = trace (lifetime h c cfg (ops1 ++ [OpDestroy])) ∧
  tornDown (lifetime h c cfg (ops1 ++ OpDestroy :: ops2)) ∧
  onmessage (lifetime h c cfg (ops1 ++ OpDestroy :: ops2))
  = (Throw TypeError, set_ready true (lifetime h c cfg (ops1 ++ OpDestroy :: ops2))).
Proof.
  unfold lifetime. rewrite !run_app. simpl.
  set (w := run h ops1 (exec (init h cfg) (create c))).
  assert (Hw : tornDown (exec destroy w)).
  { apply destroy_tornDown, singleSubscription_run, singleSubscription_init. }
  destruct (tornDown_run h ops2 _ Hw) as [Hw' Ht]. split; [done|]. split; [done|].
  unfold onmessage. rewrite handleReadyMessage_eq.
  apply broadcastQueuedMessages_released, Hw'.
Qed.

(** ** No URL *)

Lemma configured_None (cfg : PluginConfig) :
  configured cfg = None ↔ url cfg = None ∨ url cfg = Some EmptyString.
Proof.
  unfold configured. destruct (url cfg) as [[|a u]|]; simpl; split; intros H; auto;
    try done; by destruct H.
Qed.

Lemma quiet_step (h : Host) (c : Config) (op : Op) (w : World) :
  unopened w ∧ trace w = [] ∧ pending w = [] ∧ config w = c →
  unopened (step h op w) ∧ trace (step h op w) = [] ∧ pending (step h op w) = [] ∧
  config (step h op w) = c.
Proof.
  intros (Hu & Ht & Hp & Hc). split; [by apply unopened_step|].
  destruct op as [|id ev|]; simpl.
  - unfold onmessage. rewrite handleReadyMessage_trace, Ht, Hp.
    destruct (handleReadyMessage_frame w) as (_ & _ & -> & _).
    by destruct (handleReadyMessage_drains w) as [_ ->].
  - unfold deliver. destruct Hu as [-> _]. done.
  - unfold exec. rewrite destroy_eq. destruct Hu as [_ ->]. done.
Qed.

(** X9: [init] without a URL (the field absent, or the empty string) does
    nothing at all: it returns normally with the world unchanged, so
    [conversionIsComplete] keeps the value the viewer gave it; and through
    the rest of the lifetime no event source exists, nothing is broadcast
    or fired, and the viewer configuration stays as it was. *)
Theorem X9_init_without_url (h : Host) (c : Config) (cfg : PluginConfig) (ops : list Op) :
  url cfg = None ∨ url cfg = Some EmptyString →
  init h cfg (create c) = (Normal tt, create c) ∧
  sources (lifetime h c cfg ops) = [] ∧
  trace (lifetime h c cfg ops) = [] ∧
  config (lifetime h c cfg ops) = c.
Proof.
  intros Hu. apply configured_None in Hu.
  split; [by apply init_unconfigured|].
  unfold lifetime, exec. rewrite init_unconfigured by done. simpl.
  assert (H0 : unopened (create c) ∧ trace (create c) = [] ∧
               pending (create c) = [] ∧ config (create c) = c) by done.
  revert H0. generalize (create c). induction ops as [|op ops IH]; intros w Hw; simpl.
  - destruct Hw as ([Hs _] & Ht & _ & Hc). done.
  - by apply IH, quiet_step.
Qed.

Lemma X9_empty_url :
  (url (mkPluginConfig (Some EmptyString)) = None ∨
   url (mkPluginConfig (Some EmptyString)) = Some EmptyString) ∧
  config (lifetime browser tenPages (mkPluginConfig (Some EmptyString))
            [OpReady; OpDeliver 0 (mkEvent "finished.svg" None); OpDestroy])
  = tenPages.
Proof.
  assert (Hu : url (mkPluginConfig (Some EmptyString)) = None ∨
               url (mkPluginConfig (Some EmptyString)) = Some EmptyString)
    by (right; reflexivity).
  split; [exact Hu|].
  exact (proj2 (proj2 (proj2 (X9_init_without_url browser tenPages _ _ Hu)))).
Defined.

(** ** [finished] before the viewer is ready *)

(** X10: when [finished] arrives before the viewer is ready, the host API
    gets [realtimecomplete] (and the subscription is closed) before the host
    bus gets anything: the ready message then broadcasts the notifications
    that were waiting, and [{upto: numPages}] last of all. *)
Theorem X10_complete_precedes_upto (w : World) (id : nat) :
  active w id →
  ready w = false →
  trace (exec handleFinishedEvent w)
  = trace w ++ [Fire "realtimecomplete" JUndefined; Close id] ∧
  trace (exec handleReadyMessage (exec handleFinishedEvent w))
  = trace w ++ [Fire "realtimecomplete" JUndefined; Close id]
      ++ (toBroadcast <$> pending w)
      ++ [Broadcast "pageavailable" (JObj [("upto", numPages (config w))])].
Proof.
  intros Ha Hr. pose proof (handleFinishedEvent_active w id Ha) as Hf.
  destruct Ha as (_ & _ & _ & _ & _ & [q Hq]).
  unfold exec in Hf. rewrite (emit_queued _ _ _ q) in Hf by done.
  rewrite handleReadyMessage_trace. unfold exec at 1 2 3. rewrite Hf.
  unfold pending. simpl. rewrite Hq. simpl.
  split; [by rewrite <- app_assoc|].
  by rewrite fmap_app, <- !app_assoc.
Qed.

Lemma X10_finished_then_ready :
  active (opened browser tenPages "https://view.example/stream") 0 ∧
  ready (opened browser tenPages "https://view.example/stream") = false ∧
  trace (exec handleReadyMessage
           (exec handleFinishedEvent
              (opened browser tenPages "https://view.example/stream")))
  = [Connect 0 "https://view.example/stream";
     Fire "realtimecomplete" JUndefined; Close 0;
     Broadcast "pageavailable" (JObj [("upto", JNum 10)])].
Proof.
  assert (Ha : active (opened browser tenPages "https://view.example/stream") 0).
  { repeat split; try reflexivity; eexists; [split|]; reflexivity. }
  split; [exact Ha|]. split; [reflexivity|].
  exact (proj2 (X10_complete_precedes_upto _ 0 Ha eq_refl)).
Defined.

(** ** Subscribing and unsubscribing on the client *)

Lemma alter_fixed {A} (f : A → A) (l : list A) (i : nat) (x : A) :
  l !! i = Some x → f x = x → alter f i l = l.
Proof.
  intros Hl Hf. rewrite <- (list_alter_id id l i) at 2 by done.
  apply list_alter_ext; [|done]. intros y Hy.
  assert (y = x) as -> by congruence. exact Hf.
Qed.

Lemma filter_other (l : string * Handler) (ls : list (string * Handler)) :
  l ∉ ls → filter (fun l' => l' ≠ l) ls = ls.
Proof.
  induction ls as [|x ls IH]; intros Hn; [done|].
  apply not_elem_of_cons in Hn as [Hne Hn].
  rewrite filter_cons. destruct (decide (x ≠ l)) as [_|Hx]; [by rewrite IH|].
  destruct Hx. congruence.
Qed.

Lemma removeListener_addListener (l : string * Handler) (es : EventSource) :
  l ∉ es_listeners es → removeListener l (addListener l es) = es.
Proof.
  intros Hn. unfold addListener. destruct (decide (l ∈ es_listeners es)); [done|].
  unfold removeListener. simpl. rewrite filter_app, filter_other by done.
  rewrite filter_cons. destruct (decide (l ≠ l)); [done|].
  rewrite filter_nil, app_nil_r. by destruct es.
Qed.

Lemma addListener_addListener (l : string * Handler) (es : EventSource) :
  addListener l (addListener l es) = addListener l es.
Proof.
  assert (Hadd : l ∈ es_listeners (addListener l es)).
  { unfold addListener. destruct (decide (l ∈ es_listeners es)); [done|].
    simpl. apply elem_of_app. right. by apply list_elem_of_singleton. }
  unfold addListener at 1. by destruct (decide (l ∈ es_listeners (addListener l es))).
Qed.

(** X11: on a live client, [on] registers the handler behind the listeners
    already there for that event type; a second [on] of the same handler
    changes nothing; [off] undoes [on], restoring the world; and once the
    client was destroyed both [on] and [off] throw a TypeError (their
    [this.eventSource] is null) and change nothing. *)
Theorem X11_client_on_off (this : Realtime) (id : nat) (es : EventSource) (w : World)
    (n : string) (hd : Handler) :
  eventSource this = Some id →
  sources w !! id = Some es →
  (n, hd) ∉ es_listeners es →
  completion (Realtime_on this n hd) w = Normal tt ∧
  (∃ es', sources (exec (Realtime_on this n hd) w) !! id = Some es' ∧
          es_closed es' = es_closed es ∧
          listenersFor n es' = listenersFor n es ++ [hd]) ∧
  exec (Realtime_on this n hd) (exec (Realtime_on this n hd) w)
  = exec (Realtime_on this n hd) w ∧
  exec (Realtime_off this n hd) (exec (Realtime_on this n hd) w) = w ∧
  (∀ w', Realtime_on (mkRealtime None) n hd w' = (Throw TypeError, w') ∧
         Realtime_off (mkRealtime None) n hd w' = (Throw TypeError, w')) ∧
  completion (Realtime_destroy this) w = Normal (mkRealtime None).
Proof.
  intros Hthis Hs Hn.
  unfold completion, exec, Realtime_on, Realtime_off, Realtime_destroy. rewrite Hthis.
  unfold addEventListener, removeEventListener, modify. simpl.
  split_and!; try done.
  - exists (addListener (n, hd) es). rewrite list_lookup_alter_eq, Hs.
    split; [done|]. unfold addListener.
    destruct (decide ((n, hd) ∈ es_listeners es)); [done|]. simpl. split; [done|].
    unfold listenersFor. simpl. rewrite filter_app, fmap_app. f_equal.
    rewrite filter_cons. simpl. by destruct (decide (n = n)).
  - apply world_eq; simpl; try done. rewrite list_alter_alter_eq.
    apply list_alter_ext; [|done]. intros x _. apply addListener_addListener.
  - apply world_eq; simpl; try done. rewrite list_alter_alter_eq.
    apply (alter_fixed _ _ _ es); [done|]. simpl.
    by apply removeListener_addListener.
Qed.

Lemma X11_extra_listener :
  eventSource (mkRealtime (Some 0%nat)) = Some 0%nat ∧
  sources (opened browser tenPages "https://view.example/stream") !! 0%nat
  = Some (mkEventSource "https://view.example/stream" (initListeners browser) false) ∧
  (("finished.svg", handleErrorEvent_h) ∉ initListeners browser) ∧
  exec (Realtime_off (mkRealtime (Some 0%nat)) "finished.svg" handleErrorEvent_h)
       (exec (Realtime_on (mkRealtime (Some 0%nat)) "finished.svg" handleErrorEvent_h)
             (opened browser tenPages "https://view.example/stream"))
  = opened browser tenPages "https://view.example/stream".
Proof.
  assert (Hn : ("finished.svg", handleErrorEvent_h) ∉ initListeners browser).
  { apply (bool_decide_unpack _). vm_compute. exact I. }
  split; [reflexivity|]. split; [reflexivity|]. split; [exact Hn|].
  exact (proj1 (proj2 (proj2 (proj2
           (X11_client_on_off (mkRealtime (Some 0%nat)) 0 _
              (opened browser tenPages "https://view.example/stream")
              "finished.svg" handleErrorEvent_h eq_refl eq_refl Hn))))).
Defined.

(** ** Before the viewer is ready *)

Lemma busSilent_snoc (w w' : World) (es : list Effect) :
  busSilent w → ready w' = ready w → trace w' = trace w ++ es →
  Forall (fun e => ¬ isBroadcast e) es → busSilent w'.
Proof.
  intros [Hr Ht] Hr' Ht' Hes. split; [congruence|].
  rewrite Ht'. by apply Forall_app.
Qed.

Lemma busSilent_emit (n : string) (d : JSValue) :
  stable busSilent (broadcastMessageWhenReady n d).
Proof.
  intros w Hw. pose proof Hw as [Hr _]. unfold exec.
  destruct (messageQueue w) as [q|] eqn:Hq.
  - rewrite (emit_queued _ _ _ q) by done. done.
  - by rewrite emit_released.
Qed.

Lemma not_broadcast_Fire (n : string) (d : JSValue) : ¬ isBroadcast (Fire n d).
Proof. by intros (? & ? & ?). Qed.

Lemma not_broadcast_Close (id : nat) : ¬ isBroadcast (Close id).
Proof. by intros (? & ? & ?). Qed.

Lemma busSilent_closeSubscription (w : World) (id : nat) (n : string) (d : JSValue) :
  busSilent w → busSilent (closeSubscription id (emitEffect (Fire n d) w)).
Proof.
  intros Hw. apply (busSilent_snoc w _ [Fire n d; Close id]); [done|done| |].
  - simpl. by rewrite <- app_assoc.
  - repeat constructor; [apply not_broadcast_Fire | apply not_broadcast_Close].
Qed.

Lemma busSilent_runHandler (h : Host) (hd : Handler) (ev : Event) (w : World) :
  active w 0 → busSilent w → busSilent (exec (runHandler h hd ev) w).
Proof.
  intros Ha Hw. destruct hd; simpl.
  - clear Ha. revert w Hw. apply stable_handlePageAvailableEvent.
    apply busSilent_emit.
  - unfold exec at 1. rewrite (handleFinishedEvent_active w 0 Ha). simpl.
    apply busSilent_closeSubscription. by apply busSilent_emit.
  - destruct (handleErrorEvent_outcome h ev w 0 (proj1 Ha)) as [-> | [d ->]]; [done|].
    by apply busSilent_closeSubscription.
Qed.

Lemma busSilent_deliver (h : Host) (id : nat) (ev : Event) (w : World) :
  lifeInv h w → busSilent w → busSilent (deliver h id ev w).
Proof.
  intros Hl Hw. unfold deliver.
  destruct (sources w !! id) as [es|] eqn:Hlk; [|done].
  destruct (es_closed es) eqn:Ho; [done|].
  unfold lifeInv in Hl. destruct (sources w) as [|es' [|??]]; [done| |done].
  destruct id; simpl in Hlk; [|done]. injection Hlk as ->.
  rewrite Ho in Hl. destruct Hl as [Hls Ha]. specialize (Ha eq_refl).
  assert (Hnd : NoDup (es_listeners es).*1)
    by (rewrite Hls; apply NoDup_initListeners).
  destruct (listenersFor_cases (ev_type ev) es Hnd) as [-> | [hd ->]]; [done|].
  simpl. by apply busSilent_runHandler.
Qed.

Lemma busSilent_destroy (w : World) : busSilent w → busSilent (exec destroy w).
Proof.
  intros Hw. unfold exec. rewrite destroy_eq.
  destruct (realtime w) as [[[id|]]|]; simpl; try done.
  apply (busSilent_snoc w _ [Close id]); try done.
  repeat constructor. apply not_broadcast_Close.
Qed.

Lemma busSilent_run (h : Host) (ops : list Op) (w : World) :
  OpReady ∉ ops → lifeInv h w → busSilent w → busSilent (run h ops w).
Proof.
  revert w. induction ops as [|op ops IH]; intros w Hn Hl Hw; simpl; [done|].
  apply not_elem_of_cons in Hn as [Hne Hn].
  apply IH; [done | by apply lifeInv_step |].
  destruct op as [|id ev|]; simpl; [done | by apply busSilent_deliver |
                                     by apply busSilent_destroy].
Qed.

(** X12: nothing reaches the host bus before the viewer is ready.  In a
    plugin lifetime without a ready message, whatever stream events are
    delivered and whether or not the plugin is destroyed, the trace holds
    no broadcast at all (terminal signals on the host API do go out), and
    the ready flag is still unset. *)
Theorem X12_bus_silent_until_ready (h : Host) (c : Config) (cfg : PluginConfig)
    (ops : list Op) :
  OpReady ∉ ops →
  ready (lifetime h c cfg ops) = false ∧
  ∀ n d, Broadcast n d ∉ trace (lifetime h c cfg ops).
Proof.
  intros Hn.
  assert (Hi : busSilent (exec (init h cfg) (create c))).
  { destruct (init_create_cases h c cfg) as [-> | (u & _ & ->)].
    - split; [done | constructor].
    - split; [done|]. repeat constructor. by intros (? & ? & ?). }
  assert (Hl : lifeInv h (exec (init h cfg) (create c)))
    by apply (lifeInv_lifetime h c cfg []).
  destruct (busSilent_run h ops _ Hn Hl Hi) as [Hr Ht].
  split; [exact Hr|]. intros n d Hin.
  rewrite Forall_forall in Ht. apply (Ht _ Hin). by exists n, d.
Qed.

Lemma X12_pages_and_finished_unready :
  (OpReady ∉ [OpDeliver 0 (mkEvent "pageavailable.svg" (Some pagesPayload));
              OpDeliver 0 (mkEvent "finished.svg" None)]) ∧
  ready (lifetime browser tenPages streamConfig
           [OpDeliver 0 (mkEvent "pageavailable.svg" (Some pagesPayload));
            OpDeliver 0 (mkEvent "finished.svg" None)]) = false.
Proof.
  assert (Hn : OpReady ∉ [OpDeliver 0 (mkEvent "pageavailable.svg" (Some pagesPayload));
                          OpDeliver 0 (mkEvent "finished.svg" None)]).
  { intros Hin. apply elem_of_cons in Hin as [Hin | Hin]; [discriminate|].
    apply elem_of_cons in Hin as [Hin | Hin]; [discriminate|].
    by apply elem_of_nil in Hin. }
  split; [exact Hn|].
  exact (proj1 (X12_bus_silent_until_ready browser tenPages streamConfig _ Hn)).
Defined.
